(** * Click-to-segment Streamlit application (app.py)

    A shallow embedding of the script [app.py].  Streamlit executes the
    script from top to bottom on every UI refresh; [st.session_state] is
    the only thing that survives from one execution to the next.  One
    execution is modelled as a computation over the session dictionary
    that logs every call into Streamlit and into the segmentation model,
    and that can be cut short by [st.rerun()], [st.stop()] or an uncaught
    Python exception. *)

From Stdlib Require Import ZArith Lia Ascii String.
From stdpp Require Import base option list strings gmap pretty.

Local Open Scope string_scope.
Local Open Scope list_scope.
Local Open Scope Z_scope.

(** ** Python values and exceptions *)

(** A raised exception, by class name and [str(e)]. *)
Record exn := Exception { exn_class : string; exn_str : string }.

(** What cuts an execution short.  Streamlit's [RerunException] and
    [StopException] derive from [BaseException], hence they are not caught
    by [except Exception]. *)
Inductive signal :=
| RerunException
| StopException
| Raised (e : exn).

(** The dictionary returned by the image-coordinates component on a
    click; the script reads the keys ["x"] and ["y"]. *)
Record click := Click { click_x : Z; click_y : Z }.

(** ** The libraries the script calls

    Pillow, NumPy, PyTorch and Ultralytics are not part of the
    repository: their data types are kept abstract and their functions
    are the fields of an interface.  Calls that may raise on the data
    they are given return [exn + _]. *)
Class External := {
  File : Type;          (* contents of an uploaded file *)
  Image : Type;         (* PIL.Image.Image *)
  ndarray : Type;       (* numpy array of an RGB image *)
  Tensor : Type;        (* torch tensor holding one mask *)
  mask_array : Type;    (* numpy array of one mask *)
  bytes : Type;         (* contents of an io.BytesIO *)
  Image_open : File → exn + Image;
  Image_convert : Image → string → exn + Image;
  Image_size : Image → Z * Z;
  Image_new : string → Z * Z → Image;
  Image_fromarray : mask_array → exn + Image;
  (* [canvas.paste(im, mask=m)]: the canvas after the in-place paste *)
  Image_paste : Image → Image → Image → exn + Image;
  (* [im.save(buf, format=fmt)]: what the buffer holds afterwards *)
  Image_save : Image → string → bytes;
  np_array : Image → ndarray;
  cpu_numpy : Tensor → mask_array;
}.

Section App.
Context `{External}.

(** [st.file_uploader] returns [None] or an [UploadedFile]. *)
Record UploadedFile := { name : string; file : File }.

(** Ultralytics result objects, as far as the script looks into them:
    [results[0].masks] is [None] or a [Masks] object whose [data] stacks
    the predicted masks. *)
Record Masks := { data : option (list Tensor) }.
Record Results := { masks : option Masks }.

(** A list of clicked points is a Python list of two-element lists
    [[x, y]]; [np.array] of it has the same rows in the same order.
    [np.ones(n)] is the array of [n] ones. *)
Definition points_t := list (list Z).
Definition np_array_points (l : points_t) : points_t := l.
Definition np_ones (n : nat) : list Z := replicate n 1.

(** The loaded SAM model, called as
    [predictor(source=..., points=..., labels=...)]. *)
Definition Predictor := ndarray → points_t → list Z → exn + list Results.

(** Values stored under the keys of [st.session_state]: what the
    script assigns and, last, the dictionary that Streamlit keeps under
    the key of an image-coordinates component. *)
Inductive value :=
| VNone
| VBool (b : bool)
| VInt (n : Z)
| VStr (s : string)
| VPoints (l : points_t)
| VImage (im : Image)
| VClick (c : click).

(** [st.session_state]: a dictionary from key to value. *)
Abbreviation session_state := (gmap string value).

(** ** The log of an execution *)

Inductive event :=
| st_set_page_config (layout page_title : string)
| st_title (body : string)
| st_markdown (body : string)
| st_subheader (body : string)
| st_success (body : string)
| st_info (body : string)
| st_warning (body : string)
| st_error (body : string)
| st_file_uploader (label : string) (type : list string)
| streamlit_image_coordinates (source : Image) (key : string)
| st_columns (n : Z)
| st_button (label : string)
| st_spinner (text : string)
| predictor_call (source : ndarray) (points : points_t) (labels : list Z)
| st_image (img : Image) (caption : string) (use_container_width : bool)
| st_download_button (label : string) (data : bytes)
    (file_name mime : string).

(** What the browser feeds into one execution: the value each input
    widget returns, the image-coordinates component by its [key] and the
    buttons by their label. *)
Record widgets := {
  w_file_uploader : option UploadedFile;
  w_image_coordinates : string → option click;
  w_button : string → bool;
}.

(** ** The execution monad

    A computation reads and writes the session dictionary, logs events
    and either returns or is cut short; the mutations and the log made
    before an exception are kept, as in Python. *)
Definition M (A : Type) : Type :=
  session_state → (A + signal) * session_state * list event.

#[export] Instance M_ret : MRet M := λ A a ss, (inl a, ss, []).

#[export] Instance M_bind : MBind M := λ A B k m ss,
  match m ss with
  | (inl a, ss1, ev1) =>
      match k a ss1 with (r, ss2, ev2) => (r, ss2, ev1 ++ ev2) end
  | (inr sg, ss1, ev1) => (inr sg, ss1, ev1)
  end.

Definition emit (e : event) : M unit := λ ss, (inl tt, ss, [e]).
Definition throw {A} (sg : signal) : M A := λ ss, (inr sg, ss, []).
Definition raise {A} (cls msg : string) : M A :=
  throw (Raised (Exception cls msg)).
Definition st_rerun {A} : M A := throw RerunException.
Definition st_stop {A} : M A := throw StopException.

(** A library call that may raise. *)
Definition call {A} (r : exn + A) : M A :=
  match r with inl e => throw (Raised e) | inr a => mret a end.

(** [try: body / except Exception as e: handler e / finally: final].
    The handler sees exceptions only; the [finally] block runs on every
    way out and, when it is cut short itself, its signal replaces the
    pending one. *)
Definition try_except_finally (body : M unit) (handler : exn → M unit)
    (final : M unit) : M unit := λ ss,
  let '(r1, ss1, ev1) := body ss in
  let '(r2, ss2, ev2) :=
    match r1 with
    | inr (Raised e) =>
        match handler e ss1 with (r, ss', ev) => (r, ss', ev1 ++ ev) end
    | _ => (r1, ss1, ev1)
    end in
  match final ss2 with
  | (inl _, ss3, ev3) => (r2, ss3, ev2 ++ ev3)
  | (inr sg, ss3, ev3) => (inr sg, ss3, ev2 ++ ev3)
  end.

(** *** Access to [st.session_state] *)

(** [key in st.session_state] *)
Definition contains (key : string) : M bool :=
  λ ss, (inl (bool_decide (is_Some (ss !! key))), ss, []).

(** [st.session_state.key = v] *)
Definition setattr (key : string) (v : value) : M unit :=
  λ ss, (inl tt, <[key := v]> ss, []).

(** [st.session_state.key]; a missing key is an [AttributeError]. *)
Definition getattr (key : string) : M value := λ ss,
  match ss !! key with
  | Some v => (inl v, ss, [])
  | None => (inr (Raised (Exception "AttributeError" key)), ss, [])
  end.

(** The reads below are the ones the script does; a value of another
    shape than the script itself stores under the key is answered by a
    [TypeError] (no execution reaches it, see [reachable_initialised]). *)
Definition get_points (key : string) : M points_t :=
  v ← getattr key;
  match v with VPoints l => mret l | _ => raise "TypeError" key end.

Definition get_bool (key : string) : M bool :=
  v ← getattr key;
  match v with VBool b => mret b | _ => raise "TypeError" key end.

Definition get_int (key : string) : M Z :=
  v ← getattr key;
  match v with VInt n => mret n | _ => raise "TypeError" key end.

(** The recorded upload name: [None] or a string. *)
Definition get_name (key : string) : M (option string) :=
  v ← getattr key;
  match v with
  | VNone => mret None
  | VStr s => mret (Some s)
  | _ => raise "TypeError" key
  end.

(** The cached result: [None] or an image. *)
Definition get_image (key : string) : M (option Image) :=
  v ← getattr key;
  match v with
  | VNone => mret None
  | VImage im => mret (Some im)
  | _ => raise "TypeError" key
  end.

(** *** Small pieces of Python *)

Definition when (b : bool) (m : M unit) : M unit :=
  if b then m else mret tt.

(** [repr] of a list, as an f-string prints it. *)
Definition repr_list (items : list string) : string :=
  "[" +:+ String.concat ", " items +:+ "]".
Definition repr_point (p : list Z) : string := repr_list (pretty <$> p).
Definition repr_points (pts : points_t) : string :=
  repr_list (repr_point <$> pts).

(** [s.split('.')[0]]: the part of [s] before its first dot. *)
Fixpoint split_dot_0 (s : string) : string :=
  match s with
  | EmptyString => EmptyString
  | String c rest =>
      if Ascii.eqb c "."%char then EmptyString
      else String c (split_dot_0 rest)
  end.

(** ** The script, block by block *)

Section Script.
(** [SAM(path)] of Ultralytics, which loads the weights or raises. *)
Variable SAM : string → exn + Predictor.
Variable w : widgets.

(** Lines 16-32.  [st.cache_resource] keeps the loaded model; the
    [st.success] element of the cached call is replayed on every
    execution. *)
Definition load_sam_model : M Predictor :=
  match SAM "sam2.1_b.pt" with
  | inr model =>
      emit (st_success "Ultralytics SAM 2モデルが正常にロードされました。");;
      mret model
  | inl e =>
      emit (st_error
        ("Ultralytics SAM 2モデルのロード中にエラーが発生しました: "
         +:+ exn_str e));;
      emit (st_error
        "`pip install ultralytics` が正常に実行されているか確認してください。");;
      st_stop
  end.

(** Lines 40-59. *)
Definition usage : string :=
"
    このアプリケーションは、**Ultralytics版のSegment Anything Model 2 (SAM 2)** を使用して、
    画像から指定したオブジェクトを切り出し、透過PNGとして出力します。
    
    ---
    **使い方:**
    1.  上の「画像をアップロードしてください」から画像をアップロードします。
    2.  画像が表示されたら、切り出したいオブジェクトの中心付近を**クリック**します。
        * **複数点を選択**: 異なる場所を複数回クリックすると、複数の点が蓄積されます。
        * **点の選択をリセット**: 「点の選択をリセット」ボタンをクリックすると、選択した点がすべてクリアされます。
    3.  点を選択した後、「セグメンテーションを実行」ボタンをクリックしてセグメンテーションを開始します。
    4.  セグメンテーションが実行され、結果が下に表示されます。
    5.  「透過PNGをダウンロード」ボタンから結果の画像をダウンロードできます。
".

Definition page_header : M unit :=
  emit (st_set_page_config "wide" "画像セグメンテーション（SAM 2使用）");;
  emit (st_title "画像セグメンテーションアプリケーション");;
  emit (st_markdown usage).

(** Lines 62-75: every key the script uses is given its initial value
    unless the session already holds it. *)
Definition init_session_state : M unit :=
  b ← contains "points";
  when (negb b) (setattr "points" (VPoints []));;
  b ← contains "image_uploaded_name";
  when (negb b) (setattr "image_uploaded_name" VNone);;
  b ← contains "segmented_image_rgba";
  when (negb b) (setattr "segmented_image_rgba" VNone);;
  b ← contains "is_processing";
  when (negb b) (setattr "is_processing" (VBool false));;
  b ← contains "reset_counter";
  when (negb b) (setattr "reset_counter" (VInt 0)).

(** Lines 78-80. *)
Definition file_uploader : M (option UploadedFile) :=
  emit (st_file_uploader "画像をアップロードしてください"
          ["png"; "jpg"; "jpeg"]);;
  mret (w_file_uploader w).

(** Lines 83-91: a file under another name than the recorded one. *)
Definition reset_on_new_upload (uploaded_file : option UploadedFile)
    : M unit :=
  match uploaded_file with
  | Some f =>
      recorded ← get_name "image_uploaded_name";
      when (bool_decide (recorded ≠ Some (name f)))
        (setattr "points" (VPoints []);;
         setattr "segmented_image_rgba" VNone;;
         setattr "image_uploaded_name" (VStr (name f));;
         setattr "is_processing" (VBool false);;
         setattr "reset_counter" (VInt 0))
  | None => mret tt
  end.

(** [Image.open(uploaded_file).convert("RGB")], lines 95 and 163. *)
Definition open_rgb (f : UploadedFile) : M Image :=
  im ← call (Image_open (file f));
  call (Image_convert im "RGB").

(** Lines 106-108.  The value of the component is Streamlit's to keep
    (under [key], where [st.session_state] shows it too); the script
    uses what the call returns and never reads that key, see
    [carries]. *)
Definition image_coordinates (image : Image) (key : string)
    : M (option click) :=
  emit (streamlit_image_coordinates image key);;
  mret (w_image_coordinates w key).

Definition button (label : string) : M bool :=
  emit (st_button label);;
  mret (w_button w label).

(** Lines 111-122: a click the list does not hold yet is appended. *)
Definition on_click (value : option click) : M unit :=
  match value with
  | Some c =>
      let new_x := click_x c in
      let new_y := click_y c in
      pts ← get_points "points";
      when (bool_decide ([new_x; new_y] ∉ pts))
        (pts ← get_points "points";
         setattr "points" (VPoints (pts ++ [[new_x; new_y]]));;
         setattr "segmented_image_rgba" VNone;;
         setattr "is_processing" (VBool false);;
         st_rerun)
  | None => mret tt
  end.

Definition reset_label : string := "点の選択をリセット".
Definition run_label : string := "セグメンテーションを実行".

(** Lines 125-155: the selected points and the two buttons. *)
Definition points_panel : M unit :=
  pts ← get_points "points";
  if bool_decide (pts ≠ []) then
    emit (st_info ("選択された点: " +:+ repr_points pts));;
    emit (st_columns 2);;
    pressed ← button reset_label;
    when pressed
      (setattr "points" (VPoints []);;
       setattr "segmented_image_rgba" VNone;;
       setattr "is_processing" (VBool false);;
       n ← get_int "reset_counter";
       setattr "reset_counter" (VInt (n + 1));;
       st_rerun);;
    pressed ← button run_label;
    when pressed
      (setattr "is_processing" (VBool true);;
       setattr "segmented_image_rgba" VNone;;
       st_rerun)
  else
    emit (st_info
      "画像をプレビューして、切り出したいオブジェクトの中心をクリックしてください。").

(** Lines 93-157. *)
Definition main_area (uploaded_file : option UploadedFile) : M unit :=
  match uploaded_file with
  | Some f =>
      image ← open_rgb f;
      let image_np := np_array image in
      emit (st_subheader
        "画像をプレビューして、切り出したいオブジェクトの中心をクリックしてください");;
      n ← get_int "reset_counter";
      value ← image_coordinates image
                ("image_coords_" +:+ name f +:+ "_" +:+ pretty n);
      on_click value;;
      points_panel
  | None => emit (st_info "画像をアップロードして開始してください。")
  end.

(** Line 176, [results and results[0].masks and
    results[0].masks.data is not None].  A list is true when it is not
    empty; a [Masks] object has a [__len__], the number of masks stacked
    in its [data], and is true when that is not zero. *)
Definition has_mask (results : list Results) : M bool :=
  match results with
  | [] => mret false
  | r0 :: _ =>
      match masks r0 with
      | None => mret false
      | Some m =>
          match data m with
          | None =>
              raise "TypeError" "object of type 'NoneType' has no len()"
          | Some d => mret (bool_decide (d ≠ []))
          end
      end
  end.

(** Line 177, [results[0].masks.data[0]]. *)
Definition first_mask (results : list Results) : M Tensor :=
  match results with
  | [] => raise "IndexError" "list index out of range"
  | r0 :: _ =>
      match masks r0 with
      | None =>
          raise "AttributeError" "'NoneType' object has no attribute 'data'"
      | Some m =>
          match data m with
          | None =>
              raise "TypeError" "'NoneType' object is not subscriptable"
          | Some [] => raise "IndexError" "index 0 is out of bounds"
          | Some (t :: _) => mret t
          end
      end
  end.

(** Lines 168-187, the body of the [try]. *)
Definition predict (predictor : Predictor) (image : Image)
    (image_np : ndarray) : M unit :=
  pts ← get_points "points";
  let input_points := np_array_points pts in
  pts ← get_points "points";
  let input_labels := np_ones (length pts) in
  emit (predictor_call image_np input_points input_labels);;
  results ← call (predictor image_np input_points input_labels);
  found ← has_mask results;
  if (found : bool) then
    t ← first_mask results;
    let mask := cpu_numpy t in
    let segmented_image_rgba := Image_new "RGBA" (Image_size image) in
    mask_image ← call (Image_fromarray mask);
    pasted ← call (Image_paste segmented_image_rgba image mask_image);
    setattr "segmented_image_rgba" (VImage pasted)
  else
    emit (st_warning
      "指定された点ではセグメンテーションマスクが見つかりませんでした。別の点を試してください。");;
    setattr "segmented_image_rgba" VNone.

(** Lines 188-193, the [except Exception as e] block. *)
Definition on_error (e : exn) : M unit :=
  emit (st_error
    ("セグメンテーション中にエラーが発生しました: " +:+ exn_str e));;
  emit (st_error "モデルの入力点や画像の形式を確認してください。");;
  emit (st_warning
    "大規模な画像をセグメンテーションする場合、メモリが不足する可能性があります。").

(** Lines 194-196, the [finally] block. *)
Definition after_predict : M unit :=
  setattr "is_processing" (VBool false);;
  st_rerun.

(** Lines 167-196, the [try] statement. *)
Definition attempt (predictor : Predictor) (image : Image)
    (image_np : ndarray) : M unit :=
  try_except_finally (predict predictor image image_np)
    on_error after_predict.

(** Lines 161-196. *)
Definition segmentation (predictor : Predictor)
    (uploaded_file : option UploadedFile) : M unit :=
  processing ← get_bool "is_processing";
  match uploaded_file with
  | Some f =>
      when processing
        (image ← open_rgb f;
         let image_np := np_array image in
         emit (st_spinner
           "セグメンテーションを実行中...しばらくお待ちください。");;
         attempt predictor image image_np)
  | None => mret tt
  end.

(** Lines 199-217.  [uploaded_file.name] is read for the download
    name; without an uploaded file that is an [AttributeError]. *)
Definition show_result (uploaded_file : option UploadedFile) : M unit :=
  cached ← get_image "segmented_image_rgba";
  match cached with
  | Some img =>
      emit (st_subheader "セグメンテーション結果（透過PNG）");;
      emit (st_image img "セグメントされた画像" true);;
      let img_byte_arr := Image_save img "PNG" in
      match uploaded_file with
      | Some f =>
          emit (st_download_button "透過PNGをダウンロード" img_byte_arr
                  ("segmented_" +:+ split_dot_0 (name f) +:+ ".png")
                  "image/png")
      | None =>
          raise "AttributeError" "'NoneType' object has no attribute 'name'"
      end
  | None => mret tt
  end.

(** Lines 40-217, everything after the model is loaded. *)
Definition script (predictor : Predictor) : M unit :=
  page_header;;
  init_session_state;;
  uploaded_file ← file_uploader;
  reset_on_new_upload uploaded_file;;
  main_area uploaded_file;;
  segmentation predictor uploaded_file;;
  show_result uploaded_file.

(** The whole file. *)
Definition app : M unit :=
  predictor ← load_sam_model;
  script predictor.

End Script.

(** ** Reading the result of an execution *)

Definition outcome {A} (r : (A + signal) * session_state * list event)
    : A + signal := fst (fst r).
Definition session_after {A}
    (r : (A + signal) * session_state * list event) : session_state :=
  snd (fst r).
Definition log {A} (r : (A + signal) * session_state * list event)
    : list event := snd r.

(** The calls into the model that a log records, in order. *)
Definition predictor_calls (l : list event)
    : list (ndarray * points_t * list Z) :=
  omap (λ e, match e with
             | predictor_call source pts labels =>
                 Some (source, pts, labels)
             | _ => None
             end) l.

(** The pictures a log shows with [st.image], and the downloads it
    offers as (data, file name, MIME type). *)
Definition displayed_images (l : list event) : list Image :=
  omap (λ e, match e with st_image img _ _ => Some img | _ => None end) l.

Definition downloads (l : list event) : list (bytes * string * string) :=
  omap (λ e, match e with
             | st_download_button _ d file_name mime =>
                 Some (d, file_name, mime)
             | _ => None
             end) l.

(** The buttons a log renders, by label. *)
Definition buttons (l : list event) : list string :=
  omap (λ e, match e with st_button label => Some label | _ => None end) l.

(** The messages a log shows with [st.error]. *)
Definition errors (l : list event) : list string :=
  omap (λ e, match e with st_error body => Some body | _ => None end) l.

(** ** Sessions

    The five entries the script keeps in [st.session_state], by key. *)
Record entries := Entries {
  points : points_t;
  image_uploaded_name : option string;
  segmented_image_rgba : option Image;
  is_processing : bool;
  reset_counter : Z;
}.

Definition name_value (o : option string) : value :=
  match o with Some s => VStr s | None => VNone end.
Definition image_value (o : option Image) : value :=
  match o with Some im => VImage im | None => VNone end.

(** The session dictionary that holds exactly these entries. *)
Definition session_of (r : entries) : session_state :=
  <["points" := VPoints (points r)]>
  (<["image_uploaded_name" := name_value (image_uploaded_name r)]>
  (<["segmented_image_rgba" := image_value (segmented_image_rgba r)]>
  (<["is_processing" := VBool (is_processing r)]>
  (<["reset_counter" := VInt (reset_counter r)]> ∅)))).

Definition session_keys : gset string :=
  {[ "points"; "image_uploaded_name"; "segmented_image_rgba";
     "is_processing"; "reset_counter" ]}.

(** *** Entries that are not the script's

    [st.session_state] also shows what Streamlit itself keeps, such as
    the value of a widget created with a [key] (line 107).  [extra] is
    foreign when it holds none of the five keys, and a computation
    carries [extra] along when it runs on a session that holds it
    besides as it runs without it, and leaves it as it is. *)
Definition foreign (extra : session_state) : Prop :=
  ∀ key, key ∈ session_keys → extra !! key = None.

Definition carries {A} (extra : session_state) (m : M A) : Prop :=
  ∀ ss, m (ss ∪ extra)
        = match m ss with (res, ss', ev) => (res, ss' ∪ extra, ev) end.

(** What lines 62-75 leave in a fresh session. *)
Definition initial : entries := Entries [] None None false 0.

(** What lines 83-91 leave when [f] is uploaded: the entries as they
    were under the recorded name, blank ones under a new name. *)
Definition upload_recorded (f : UploadedFile) (r : entries) : entries :=
  if bool_decide (image_uploaded_name r ≠ Some (name f))
  then Entries [] (Some (name f)) None false 0
  else r.

(** The key of the image-coordinates component, line 107. *)
Definition coordinates_key (f : UploadedFile) (r : entries) : string :=
  "image_coords_" +:+ name f +:+ "_" +:+ pretty (reset_counter r).

(** ** Reading the screen

    [f] decodes to the RGB picture [image]. *)
Definition decodes (f : UploadedFile) (image : Image) : Prop :=
  ∃ im, Image_open (file f) = inr im ∧ Image_convert im "RGB" = inr image.

(** The image-coordinates component reports no click, or one the list
    already holds. *)
Definition no_new_click (w : widgets) (f : UploadedFile) (r : entries)
    : Prop :=
  ∀ c, w_image_coordinates w (coordinates_key f r) = Some c →
       [click_x c; click_y c] ∈ points r.

(** No button press is handled: the buttons are not on the page, or
    neither is pressed. *)
Definition no_press (w : widgets) (r : entries) : Prop :=
  points r = [] ∨
  (w_button w reset_label = false ∧ w_button w run_label = false).

(** The picture of the recorded upload [f] is on the page and nothing
    new was clicked on it. *)
Definition on_screen (w : widgets) (f : UploadedFile) (image : Image)
    (r : entries) : Prop :=
  w_file_uploader w = Some f ∧
  image_uploaded_name r = Some (name f) ∧
  decodes f image ∧
  no_new_click w f r.

(** What lines 40-80 put on the page. *)
Definition header_log : list event :=
  [ st_set_page_config "wide" "画像セグメンテーション（SAM 2使用）";
    st_title "画像セグメンテーションアプリケーション";
    st_markdown usage;
    st_file_uploader "画像をアップロードしてください" ["png"; "jpg"; "jpeg"] ].

(** What lines 93-155 put on the page when no click and no button press
    is handled. *)
Definition preview_log (f : UploadedFile) (image : Image) (r : entries)
    : list event :=
  [ st_subheader
      "画像をプレビューして、切り出したいオブジェクトの中心をクリックしてください";
    streamlit_image_coordinates image (coordinates_key f r) ] ++
  (if bool_decide (points r ≠ []) then
     [ st_info ("選択された点: " +:+ repr_points (points r));
       st_columns 2; st_button reset_label; st_button run_label ]
   else
     [ st_info
         "画像をプレビューして、切り出したいオブジェクトの中心をクリックしてください。" ]).

(** What lines 199-217 put on the page for the cached result [out]. *)
Definition result_log (f : UploadedFile) (out : Image) : list event :=
  [ st_subheader "セグメンテーション結果（透過PNG）";
    st_image out "セグメントされた画像" true;
    st_download_button "透過PNGをダウンロード" (Image_save out "PNG")
      ("segmented_" +:+ split_dot_0 (name f) +:+ ".png") "image/png" ].

(** What lines 188-193 put on the page for the exception [e]. *)
Definition error_log (e : exn) : list event :=
  [ st_error ("セグメンテーション中にエラーが発生しました: " +:+ exn_str e);
    st_error "モデルの入力点や画像の形式を確認してください。";
    st_warning
      "大規模な画像をセグメンテーションする場合、メモリが不足する可能性があります。" ].

Definition spinner_log : list event :=
  [ st_spinner "セグメンテーションを実行中...しばらくお待ちください。" ].

(** ** Executions in sequence

    [st.rerun()] makes Streamlit execute the script again at once, with
    the widget values it has; a button is true only in the execution
    its press triggered. *)
Definition released (w : widgets) : widgets :=
  {| w_file_uploader := w_file_uploader w;
     w_image_coordinates := w_image_coordinates w;
     w_button := λ _, false |}.

(** The session dictionaries a browser session can hold: the empty one
    it starts with, and what any execution of the file leaves. *)
Inductive reachable : session_state → Prop :=
| reachable_fresh : reachable ∅
| reachable_run SAM w ss :
    reachable ss → reachable (session_after (app SAM w ss)).

(** No point is listed twice, and while a segmentation is pending no
    result is cached. *)
Definition consistent (r : entries) : Prop :=
  NoDup (points r) ∧
  (is_processing r = true → segmented_image_rgba r = None).

(** ** The script as a transition system

    The entries as lines 83-91 leave them, for the widgets of an
    execution. *)
Definition start_of (w : widgets) (r : entries) : entries :=
  match w_file_uploader w with
  | Some f => upload_recorded f r
  | None => r
  end.

(** An execution that is not cut short by [st.rerun()] returns or
    raises. *)
Definition ends (res : unit + signal) : Prop :=
  match res with
  | inl _ | inr (Raised _) => True
  | inr RerunException | inr StopException => False
  end.

(** How an execution ends and what it assigns to [st.session_state]
    after line 91, by the block that does it: nothing, and it returns or
    raises; or it is cut short by the [st.rerun()] of the click handler
    (lines 115-122), of the reset button (131-141), of the run button
    (146-150), or of the [try] statement (182, 187, 195-196). *)
Inductive change (w : widgets) (r : entries)
    : unit + signal → entries → Prop :=
| change_none res : ends res → change w r res r
| change_click f c :
    w_file_uploader w = Some f →
    w_image_coordinates w (coordinates_key f r) = Some c →
    [click_x c; click_y c] ∉ points r →
    change w r (inr RerunException)
      (Entries (points r ++ [[click_x c; click_y c]])
         (image_uploaded_name r) None false (reset_counter r))
| change_reset f :
    w_file_uploader w = Some f → no_new_click w f r →
    points r ≠ [] → w_button w reset_label = true →
    change w r (inr RerunException)
      (Entries [] (image_uploaded_name r) None false (reset_counter r + 1))
| change_run f :
    w_file_uploader w = Some f → no_new_click w f r →
    points r ≠ [] → w_button w reset_label = false →
    w_button w run_label = true →
    change w r (inr RerunException)
      (Entries (points r) (image_uploaded_name r) None true
         (reset_counter r))
| change_attempt f cached :
    w_file_uploader w = Some f → no_new_click w f r →
    is_processing r = true → no_press w r →
    change w r (inr RerunException)
      (Entries (points r) (image_uploaded_name r) cached false
         (reset_counter r)).

(** What the script keeps true of the entries besides [consistent]:
    every point has two coordinates, the counter is not negative, points
    are selected only on a recorded upload, a segmentation is pending
    only with points selected, and a result is cached only with points
    selected and nothing pending. *)
Definition coherent (r : entries) : Prop :=
  Forall (λ p, length p = 2%nat) (points r) ∧
  0 ≤ reset_counter r ∧
  (points r ≠ [] → is_Some (image_uploaded_name r)) ∧
  (is_processing r = true → points r ≠ []) ∧
  (is_Some (segmented_image_rgba r) →
   points r ≠ [] ∧ is_processing r = false).

End App.

(** ** A small concrete instance of the libraries

    Images are rows of RGBA pixels, masks are rows of booleans, and a
    file is either such an image or unreadable.  The instance gives the
    general statements something to run on. *)
Module Toy.

Definition pixel : Type := Z * Z * Z * Z.
Record image := { mode : string; rows : list (list pixel) }.

Definition size (im : image) : Z * Z :=
  (Z.of_nat (length (default [] (head (rows im)))),
   Z.of_nat (length (rows im))).

Definition open (f : option image) : exn + image :=
  match f with
  | Some im => inr im
  | None => inl (Exception "UnidentifiedImageError"
                   "cannot identify image file")
  end.

Definition convert (im : image) (m : string) : exn + image :=
  inr {| mode := m; rows := rows im |}.

Definition new (m : string) (sz : Z * Z) : image :=
  {| mode := m;
     rows := replicate (Z.to_nat sz.2)
               (replicate (Z.to_nat sz.1) (0, 0, 0, 0)) |}.

Definition fromarray (mask : list (list bool)) : exn + image :=
  inr {| mode := "1";
         rows := map (map (λ b : bool,
                   if b then (255, 255, 255, 255) else (0, 0, 0, 0))) mask |}.

Definition paste_pixel (c p m : pixel) : pixel :=
  if bool_decide (m = (0, 0, 0, 0)) then c else p.

Definition paste (canvas im mask : image) : exn + image :=
  if bool_decide (size im = size canvas ∧ size mask = size canvas) then
    inr {| mode := mode canvas;
           rows := zip_with (λ cr pm,
                     zip_with (λ c pm', paste_pixel c pm'.1 pm'.2)
                              cr (zip pm.1 pm.2))
                     (rows canvas) (zip (rows im) (rows mask)) |}
  else inl (Exception "ValueError" "images do not match").

Definition save (im : image) (fmt : string) : string * image := (fmt, im).

#[export] Instance external : External := {|
  File := option image;
  Image := image;
  ndarray := list (list pixel);
  Tensor := list (list bool);
  mask_array := list (list bool);
  bytes := string * image;
  Image_open := open;
  Image_convert := convert;
  Image_size := size;
  Image_new := new;
  Image_fromarray := fromarray;
  Image_paste := paste;
  Image_save := save;
  np_array := rows;
  cpu_numpy := id;
|}.

(** A 2x1 picture, uploaded as [cat.png]. *)
Definition cat : image :=
  {| mode := "RGB"; rows := [[(10, 20, 30, 255); (40, 50, 60, 255)]] |}.
Definition cat_png : UploadedFile := {| name := "cat.png"; file := Some cat |}.

(** A model that selects the left pixel, one that finds nothing and one
    that fails. *)
Definition left_mask : Tensor := [[true; false]].
Definition left_masks : Masks := {| data := Some [left_mask] |}.
Definition left_result : Results := {| masks := Some left_masks |}.
Definition left_mask_image : image :=
  {| mode := "1"; rows := [[(255, 255, 255, 255); (0, 0, 0, 0)]] |}.
Definition left_pixel : Predictor := λ _ _ _, inr [left_result].
Definition no_mask : Predictor := λ _ _ _, inr [ {| masks := None |} ].
Definition out_of_memory : Predictor := λ _ _ _,
  inl (Exception "RuntimeError" "CUDA out of memory").

Definition loaded (p : Predictor) : string → exn + Predictor := λ _, inr p.

(** Widget states: nothing touched, a click at (1, 0), a button. *)
Definition idle (f : option UploadedFile) : widgets :=
  {| w_file_uploader := f;
     w_image_coordinates := λ _, None;
     w_button := λ _, false |}.
Definition clicked (f : option UploadedFile) (x y : Z) : widgets :=
  {| w_file_uploader := f;
     w_image_coordinates := λ _, Some (Click x y);
     w_button := λ _, false |}.
Definition pressing (f : option UploadedFile) (label : string) : widgets :=
  {| w_file_uploader := f;
     w_image_coordinates := λ _, None;
     w_button := λ l, bool_decide (l = label) |}.

(** Sessions on [cat.png] with the point (1, 0) selected: at rest, and
    with a segmentation pending. *)
Definition one_point : entries :=
  Entries [[1; 0]] (Some "cat.png") None false 0.
Definition pending : entries :=
  Entries [[1; 0]] (Some "cat.png") None true 0.

(** The left pixel of [cat] on a transparent canvas. *)
Definition cut_out : image :=
  {| mode := "RGBA"; rows := [[(10, 20, 30, 255); (0, 0, 0, 0)]] |}.

(** The session on [cat.png] once the cut-out is cached. *)
Definition segmented : entries :=
  Entries [[1; 0]] (Some "cat.png") (Some cut_out) false 0.

(** What Streamlit keeps for the image-coordinates component of
    [cat.png] after a click at (1, 0). *)
Definition component_state : gmap string value :=
  {[ "image_coords_cat.png_0" := VClick (Click 1 0) ]}.

(** Another picture, uploaded as [dog.png]. *)
Definition dog : image :=
  {| mode := "RGB"; rows := [[(70, 80, 90, 255)]; [(1, 2, 3, 255)]] |}.
Definition dog_png : UploadedFile := {| name := "dog.png"; file := Some dog |}.

(** A model whose mask has one pixel only, so that it does not fit the
    picture; a file that is no picture; a model file that is missing. *)
Definition small_mask : Tensor := [[true]].
Definition small_masks : Masks := {| data := Some [small_mask] |}.
Definition wrong_size : Predictor := λ _ _ _,
  inr [ {| masks := Some small_masks |} ].
Definition broken_png : UploadedFile :=
  {| name := "broken.png"; file := None |}.
Definition not_found : string → exn + Predictor := λ _,
  inl (Exception "FileNotFoundError" "sam2.1_b.pt").

End Toy.

(** * Properties *)

Section Properties.
Context `{External}.

(** ** Executing the primitives on a session with the five entries *)

Lemma bind_eq {A B} (m : M A) (k : A → M B) ss :
  (m ≫= k) ss =
  match m ss with
  | (inl a, ss1, ev1) =>
      match k a ss1 with (r, ss2, ev2) => (r, ss2, ev1 ++ ev2) end
  | (inr sg, ss1, ev1) => (inr sg, ss1, ev1)
  end.
Proof. reflexivity. Qed.

Lemma ret_eq {A} (a : A) ss : (mret a : M A) ss = (inl a, ss, []).
Proof. reflexivity. Qed.

Lemma emit_eq e ss : emit e ss = (inl tt, ss, [e]).
Proof. reflexivity. Qed.

Lemma throw_eq {A} sg ss : (throw sg : M A) ss = (inr sg, ss, []).
Proof. reflexivity. Qed.

Lemma get_points_of p n s b c :
  get_points "points" (session_of (Entries p n s b c))
  = (inl p, session_of (Entries p n s b c), []).
Proof. reflexivity. Qed.

Lemma get_name_of p n s b c :
  get_name "image_uploaded_name" (session_of (Entries p n s b c))
  = (inl n, session_of (Entries p n s b c), []).
Proof. destruct n; reflexivity. Qed.

Lemma get_image_of p n s b c :
  get_image "segmented_image_rgba" (session_of (Entries p n s b c))
  = (inl s, session_of (Entries p n s b c), []).
Proof. destruct s; reflexivity. Qed.

Lemma get_bool_of p n s b c :
  get_bool "is_processing" (session_of (Entries p n s b c))
  = (inl b, session_of (Entries p n s b c), []).
Proof. reflexivity. Qed.

Lemma get_int_of p n s b c :
  get_int "reset_counter" (session_of (Entries p n s b c))
  = (inl c, session_of (Entries p n s b c), []).
Proof. reflexivity. Qed.

Lemma set_points_of v p n s b c :
  setattr "points" (VPoints v) (session_of (Entries p n s b c))
  = (inl tt, session_of (Entries v n s b c), []).
Proof. reflexivity. Qed.

Lemma set_name_of v p n s b c :
  setattr "image_uploaded_name" (VStr v) (session_of (Entries p n s b c))
  = (inl tt, session_of (Entries p (Some v) s b c), []).
Proof. reflexivity. Qed.

Lemma set_none_of p n s b c :
  setattr "segmented_image_rgba" VNone (session_of (Entries p n s b c))
  = (inl tt, session_of (Entries p n None b c), []).
Proof. reflexivity. Qed.

Lemma set_image_of v p n s b c :
  setattr "segmented_image_rgba" (VImage v) (session_of (Entries p n s b c))
  = (inl tt, session_of (Entries p n (Some v) b c), []).
Proof. reflexivity. Qed.

Lemma set_bool_of v p n s b c :
  setattr "is_processing" (VBool v) (session_of (Entries p n s b c))
  = (inl tt, session_of (Entries p n s v c), []).
Proof. reflexivity. Qed.

Lemma set_int_of v p n s b c :
  setattr "reset_counter" (VInt v) (session_of (Entries p n s b c))
  = (inl tt, session_of (Entries p n s b v), []).
Proof. reflexivity. Qed.

(** Lines 62-75 complete a fresh session and leave a complete one
    alone. *)
Lemma init_fresh : init_session_state ∅ = (inl tt, session_of initial, []).
Proof. reflexivity. Qed.

Lemma init_of r : init_session_state (session_of r) = (inl tt, session_of r, []).
Proof. reflexivity. Qed.

Lemma dom_session_of r : dom (session_of r) = session_keys.
Proof. reflexivity. Qed.

(** Symbolic execution: the monad is unfolded one step at a time, reads
    and writes are answered by the lemmas above, and a test on a value
    that is not known is either settled by a hypothesis or split. *)
Ltac redex t :=
  lazymatch t with
  | match ?x with _ => _ end => redex x
  | ?f _ =>
      lazymatch f with
      | match ?x with _ => _ end => redex x
      | _ => t
      end
  | _ => t
  end.

Ltac exec_at t :=
  lazymatch t with
  | (_ ≫= _) _ => rewrite bind_eq
  | emit ?e ?ss => rewrite (emit_eq e ss)
  | mret _ _ => rewrite ret_eq
  | throw _ _ => rewrite throw_eq
  | get_points _ (session_of (Entries ?p ?n ?s ?b ?c)) =>
      rewrite (get_points_of p n s b c)
  | get_name _ (session_of (Entries ?p ?n ?s ?b ?c)) =>
      rewrite (get_name_of p n s b c)
  | get_image _ (session_of (Entries ?p ?n ?s ?b ?c)) =>
      rewrite (get_image_of p n s b c)
  | get_bool _ (session_of (Entries ?p ?n ?s ?b ?c)) =>
      rewrite (get_bool_of p n s b c)
  | get_int _ (session_of (Entries ?p ?n ?s ?b ?c)) =>
      rewrite (get_int_of p n s b c)
  | setattr _ (VPoints ?v) (session_of (Entries ?p ?n ?s ?b ?c)) =>
      rewrite (set_points_of v p n s b c)
  | setattr _ (VStr ?v) (session_of (Entries ?p ?n ?s ?b ?c)) =>
      rewrite (set_name_of v p n s b c)
  | setattr _ VNone (session_of (Entries ?p ?n ?s ?b ?c)) =>
      rewrite (set_none_of p n s b c)
  | setattr _ (VImage ?v) (session_of (Entries ?p ?n ?s ?b ?c)) =>
      rewrite (set_image_of v p n s b c)
  | setattr _ (VBool ?v) (session_of (Entries ?p ?n ?s ?b ?c)) =>
      rewrite (set_bool_of v p n s b c)
  | setattr _ (VInt ?v) (session_of (Entries ?p ?n ?s ?b ?c)) =>
      rewrite (set_int_of v p n s b c)
  | init_session_state (session_of ?r) => rewrite (init_of r)
  | when _ _ _ => unfold when
  | st_rerun _ => unfold st_rerun
  | st_stop _ => unfold st_stop
  | raise _ _ _ => unfold raise
  | call _ _ => unfold call
  end.

Ltac side :=
  solve [ done | intros []; done | intros Hn; apply Hn; done
        | tauto | congruence ].

Ltac settle t :=
  lazymatch t with
  | bool_decide ?P =>
      first [ rewrite (bool_decide_eq_true_2 P) by side
            | rewrite (bool_decide_eq_false_2 P) by side ]
  | _ =>
      match goal with
      | Heq : t = _ |- _ => rewrite Heq
      end
  end.

Ltac exec_step :=
  first
  [ progress cbv beta iota
  | lazymatch goal with
    | |- ?lhs = _ => let t := redex lhs in first [ exec_at t | settle t ]
    end ].

Ltac split_test :=
  lazymatch goal with
  | |- ?lhs = _ =>
      let t := redex lhs in
      lazymatch t with
      | bool_decide _ => case_bool_decide
      | _ => lazymatch type of t with
             | prod _ _ => fail
             | _ => destruct t eqn:?
             end
      end
  end.

Ltac case_split :=
  match goal with
  | |- context [match ?x with _ => _ end] =>
      lazymatch x with
      | context [match _ with _ => _ end] => fail
      | _ => lazymatch type of x with
             | prod _ _ => fail
             | _ => destruct x eqn:?
             end
      end
  end.

Ltac tidy :=
  cbn [app w_file_uploader w_image_coordinates w_button released
       points image_uploaded_name segmented_image_rgba is_processing
       reset_counter outcome session_after log fst snd] in *.
Ltac exec := tidy; repeat exec_step; tidy.
Ltac finish :=
  repeat match goal with
         | |- context [bool_decide ?P] =>
             first [ rewrite (bool_decide_eq_true_2 P) by side
                   | rewrite (bool_decide_eq_false_2 P) by side ]
         end;
  try subst; cbv beta iota;
  first [ reflexivity | done ].
Ltac explore := exec; repeat (split_test; exec).

(** ** The blocks of the script *)

Lemma reset_on_new_upload_of f r :
  reset_on_new_upload (Some f) (session_of r)
  = (inl tt, session_of (upload_recorded f r), []).
Proof.
  destruct r as [p n s b c]. unfold reset_on_new_upload, upload_recorded.
  cbn [image_uploaded_name]. explore; finish.
Qed.

Lemma on_click_old c r :
  [click_x c; click_y c] ∈ points r →
  on_click (Some c) (session_of r) = (inl tt, session_of r, []).
Proof.
  destruct r as [p n s b k]. cbn [points]. intros Hin.
  unfold on_click. exec. finish.
Qed.

Lemma on_click_new c r :
  [click_x c; click_y c] ∉ points r →
  on_click (Some c) (session_of r)
  = (inr RerunException,
     session_of (Entries (points r ++ [[click_x c; click_y c]])
                   (image_uploaded_name r) None false (reset_counter r)),
     []).
Proof.
  destruct r as [p n s b k]. cbn [points]. intros Hin.
  unfold on_click. exec. finish.
Qed.


Lemma open_rgb_decodes f image ss :
  decodes f image → open_rgb f ss = (inl image, ss, []).
Proof. intros (im & Hopen & Hconv). unfold open_rgb. exec. finish. Qed.

(** The main area, when neither a click nor a press is handled. *)
Lemma main_area_idle w f image r :
  decodes f image → no_new_click w f r → no_press w r →
  main_area w (Some f) (session_of r)
  = (inl tt, session_of r, preview_log f image r).
Proof.
  intros Hdec Hclick Hpress. destruct r as [p n s b k].
  unfold no_new_click, coordinates_key in Hclick. cbn in Hclick.
  unfold main_area, image_coordinates, points_panel, button, preview_log,
    coordinates_key.
  rewrite bind_eq, (open_rgb_decodes _ _ _ Hdec). exec.
  destruct Hpress as [Hempty|[Hreset Hrun]]; cbn [points] in *;
    [subst p|];
    (destruct (w_image_coordinates w _) as [c|] eqn:Hc;
     [ specialize (Hclick c eq_refl);
       rewrite (on_click_old c (Entries _ n s b k) Hclick)
     | unfold on_click ]);
    explore; finish.
Qed.


(** The main area, when the run button is pressed. *)
Lemma main_area_run w f image r :
  decodes f image → no_new_click w f r → points r ≠ [] →
  w_button w reset_label = false → w_button w run_label = true →
  main_area w (Some f) (session_of r)
  = (inr RerunException,
     session_of (Entries (points r) (image_uploaded_name r) None true
                   (reset_counter r)),
     preview_log f image r).
Proof.
  intros Hdec Hclick Hpts Hreset Hrun. destruct r as [p n s b k].
  unfold no_new_click, coordinates_key in Hclick. cbn in Hclick, Hpts.
  unfold main_area, image_coordinates, points_panel, button, preview_log,
    coordinates_key.
  rewrite bind_eq, (open_rgb_decodes _ _ _ Hdec). exec.
  destruct (w_image_coordinates w _) as [c|] eqn:Hc.
  - specialize (Hclick c eq_refl).
    rewrite (on_click_old c (Entries p n s b k) Hclick).
    exec; finish.
  - unfold on_click. exec; finish.
Qed.

(** The main area, when a point is clicked that the list does not hold. *)
Lemma main_area_click w f image r c :
  decodes f image →
  w_image_coordinates w (coordinates_key f r) = Some c →
  [click_x c; click_y c] ∉ points r →
  main_area w (Some f) (session_of r)
  = (inr RerunException,
     session_of (Entries (points r ++ [[click_x c; click_y c]])
                   (image_uploaded_name r) None false (reset_counter r)),
     [ st_subheader
         "画像をプレビューして、切り出したいオブジェクトの中心をクリックしてください";
       streamlit_image_coordinates image (coordinates_key f r) ]).
Proof.
  intros Hdec Hc Hnew. unfold main_area, image_coordinates.
  rewrite bind_eq, (open_rgb_decodes _ _ _ Hdec).
  destruct r as [p n s b k]. unfold coordinates_key in *. cbn in Hc, Hnew.
  exec. rewrite Hc, (on_click_new c (Entries p n s b k) Hnew).
  exec; finish.
Qed.

(** Lines 40-91: the page header, and the session as it is once the
    upload is recorded. *)
Lemma script_with_file pred w f r :
  w_file_uploader w = Some f →
  script w pred (session_of r)
  = match (main_area w (Some f);; segmentation pred (Some f);;
           show_result (Some f)) (session_of (upload_recorded f r)) with
    | (res, ss, ev) => (res, ss, header_log ++ ev)
    end.
Proof.
  intros Hf. unfold script, page_header, file_uploader. rewrite Hf.
  exec. rewrite reset_on_new_upload_of. exec.
  destruct (main_area w (Some f) _) as [[[[]|sg] ss1] ev1]; [|reflexivity].
  cbv beta iota.
  destruct ((segmentation pred (Some f);; show_result (Some f)) ss1)
    as [[res ss2] ev2].
  reflexivity.
Qed.

Lemma upload_recorded_same f r :
  image_uploaded_name r = Some (name f) → upload_recorded f r = r.
Proof.
  intros Hn. unfold upload_recorded. rewrite Hn.
  rewrite bool_decide_eq_false_2; [done | by intros []].
Qed.


(** ** The segmentation attempt, lines 167-196 *)

(** The model raises: the handler reports, the flag is cleared. *)
Lemma attempt_raise pred image r e :
  pred (np_array image) (np_array_points (points r))
       (np_ones (length (points r))) = inl e →
  attempt pred image (np_array image) (session_of r)
  = (inr RerunException,
     session_of (Entries (points r) (image_uploaded_name r)
                   (segmented_image_rgba r) false (reset_counter r)),
     predictor_call (np_array image) (np_array_points (points r))
       (np_ones (length (points r))) :: error_log e).
Proof.
  destruct r as [p n s b k]. cbn [points]. intros Hpred.
  unfold attempt, try_except_finally, predict, on_error, after_predict.
  exec. finish.
Qed.

(** The model returns a mask and Pillow accepts it: the picture pasted
    through the mask is cached, the flag is cleared. *)
Lemma attempt_success pred image r r0 rest m t ts mask_image out :
  pred (np_array image) (np_array_points (points r))
       (np_ones (length (points r))) = inr (r0 :: rest) →
  masks r0 = Some m → data m = Some (t :: ts) →
  Image_fromarray (cpu_numpy t) = inr mask_image →
  Image_paste (Image_new "RGBA" (Image_size image)) image mask_image
    = inr out →
  attempt pred image (np_array image) (session_of r)
  = (inr RerunException,
     session_of (Entries (points r) (image_uploaded_name r) (Some out)
                   false (reset_counter r)),
     [predictor_call (np_array image) (np_array_points (points r))
        (np_ones (length (points r)))]).
Proof.
  destruct r as [p n s b k]. cbn [points].
  intros Hpred Hmasks Hdata Hmask Hpaste.
  unfold attempt, try_except_finally, predict, has_mask, first_mask,
    on_error, after_predict.
  exec. finish.
Qed.


(** The body of the [try], case by case. *)
Lemma predict_eq pred image r :
  predict pred image (np_array image) (session_of r)
  = let called :=
      predictor_call (np_array image) (np_array_points (points r))
        (np_ones (length (points r))) in
    let nothing :=
      (inl tt,
       session_of (Entries (points r) (image_uploaded_name r) None
                     (is_processing r) (reset_counter r)),
       [ called;
         st_warning
           "指定された点ではセグメンテーションマスクが見つかりませんでした。別の点を試してください。" ]) in
    let raised e := (inr (Raised e), session_of r, [called]) in
    match pred (np_array image) (np_array_points (points r))
               (np_ones (length (points r))) with
    | inl e => raised e
    | inr [] => nothing
    | inr (r0 :: _) =>
        match masks r0 with
        | None => nothing
        | Some m =>
            match data m with
            | None =>
                raised (Exception "TypeError"
                          "object of type 'NoneType' has no len()")
            | Some [] => nothing
            | Some (t :: _) =>
                match Image_fromarray (cpu_numpy t) with
                | inl e => raised e
                | inr mask_image =>
                    match Image_paste (Image_new "RGBA" (Image_size image))
                            image mask_image with
                    | inl e => raised e
                    | inr out =>
                        (inl tt,
                         session_of
                           (Entries (points r) (image_uploaded_name r)
                              (Some out) (is_processing r)
                              (reset_counter r)),
                         [called])
                    end
                end
            end
        end
    end.
Proof.
  destruct r as [p n s b k].
  unfold predict, has_mask, first_mask.
  explore; finish.
Qed.


(** Every attempt calls the model once, with the points of the session,
    ends in a rerun with the flag cleared, and leaves the cached result
    alone when the body raises. *)
Lemma attempt_any pred image r :
  ∃ cached ev,
    attempt pred image (np_array image) (session_of r)
    = (inr RerunException,
       session_of (Entries (points r) (image_uploaded_name r) cached false
                     (reset_counter r)),
       ev) ∧
    predictor_calls ev
    = [(np_array image, np_array_points (points r),
        np_ones (length (points r)))] ∧
    (∀ e, outcome (predict pred image (np_array image) (session_of r))
          = inr (Raised e) →
          cached = segmented_image_rgba r).
Proof.
  unfold attempt, try_except_finally, on_error, after_predict.
  rewrite predict_eq. destruct r as [p n s b k]. tidy.
  repeat case_split; cbv beta iota zeta.
  all: eexists _, _; split; [exec; finish|]; split; [reflexivity|].
  all: intros e' He'; simplify_eq; reflexivity.
Qed.


(** ** Segmentation and result display *)

Lemma segmentation_idle pred uf r :
  is_processing r = false →
  segmentation pred uf (session_of r) = (inl tt, session_of r, []).
Proof.
  destruct r as [p n s b k]. cbn [is_processing]. intros ->.
  unfold segmentation. destruct uf; exec; finish.
Qed.

Lemma segmentation_attempt pred f image r :
  decodes f image → is_processing r = true →
  segmentation pred (Some f) (session_of r)
  = match attempt pred image (np_array image) (session_of r) with
    | (res, ss, ev) => (res, ss, spinner_log ++ ev)
    end.
Proof.
  destruct r as [p n s b k]. cbn [is_processing]. intros Hdec ->.
  unfold segmentation. exec.
  rewrite (open_rgb_decodes _ _ _ Hdec). exec.
  destruct (attempt _ _ _ _) as [[res ss] ev]. reflexivity.
Qed.

Lemma show_result_none uf r :
  segmented_image_rgba r = None →
  show_result uf (session_of r) = (inl tt, session_of r, []).
Proof.
  destruct r as [p n s b k]. cbn [segmented_image_rgba]. intros ->.
  unfold show_result. exec. finish.
Qed.

Lemma show_result_cached f out r :
  segmented_image_rgba r = Some out →
  show_result (Some f) (session_of r)
  = (inl tt, session_of r, result_log f out).
Proof.
  destruct r as [p n s b k]. cbn [segmented_image_rgba]. intros ->.
  unfold show_result. exec. finish.
Qed.

(** Displaying never touches the session and never calls the model. *)
Lemma show_result_any uf r :
  ∃ res ev,
    show_result uf (session_of r) = (res, session_of r, ev) ∧
    predictor_calls ev = [].
Proof.
  destruct r as [p n [out|] b k], uf as [f|]; unfold show_result.
  all: eexists _, _; split; [exec; finish | reflexivity].
Qed.


(** ** Whole executions along one path *)

Ltac on_path Hscreen :=
  destruct Hscreen as (Hfile & Hname & Hdec & Hclick);
  rewrite (script_with_file _ _ _ _ Hfile), (upload_recorded_same _ _ Hname).

(** The run button is pressed. *)
Lemma script_press pred w f image r :
  on_screen w f image r → points r ≠ [] →
  w_button w reset_label = false → w_button w run_label = true →
  script w pred (session_of r)
  = (inr RerunException,
     session_of (Entries (points r) (image_uploaded_name r) None true
                   (reset_counter r)),
     header_log ++ preview_log f image r).
Proof.
  intros Hscreen Hpts Hreset Hrun. on_path Hscreen.
  rewrite bind_eq, (main_area_run _ _ _ _ Hdec Hclick Hpts Hreset Hrun).
  reflexivity.
Qed.

(** A segmentation is pending: the execution goes into the attempt. *)
Lemma script_attempt pred w f image r sg ss ev :
  on_screen w f image r → no_press w r →
  is_processing r = true →
  attempt pred image (np_array image) (session_of r) = (inr sg, ss, ev) →
  script w pred (session_of r)
  = (inr sg, ss,
     header_log ++ preview_log f image r ++ spinner_log ++ ev).
Proof.
  intros Hscreen Hpress Hproc Hatt. on_path Hscreen.
  rewrite bind_eq, (main_area_idle _ _ _ _ Hdec Hclick Hpress).
  cbv beta iota.
  rewrite bind_eq, (segmentation_attempt _ _ _ _ Hdec Hproc), Hatt.
  reflexivity.
Qed.

(** Nothing is pending and a result is cached: it is displayed. *)
Lemma script_show pred w f image r out :
  on_screen w f image r → no_press w r →
  is_processing r = false → segmented_image_rgba r = Some out →
  script w pred (session_of r)
  = (inl tt, session_of r,
     header_log ++ preview_log f image r ++ result_log f out).
Proof.
  intros Hscreen Hpress Hproc Hout. on_path Hscreen.
  rewrite bind_eq, (main_area_idle _ _ _ _ Hdec Hclick Hpress).
  cbv beta iota.
  rewrite bind_eq, (segmentation_idle _ _ _ Hproc).
  cbv beta iota.
  rewrite (show_result_cached _ _ _ Hout). reflexivity.
Qed.

(** A point is clicked that the list does not hold. *)
Lemma script_click pred w f image r c :
  w_file_uploader w = Some f → decodes f image →
  w_image_coordinates w (coordinates_key f (upload_recorded f r)) = Some c →
  [click_x c; click_y c] ∉ points (upload_recorded f r) →
  script w pred (session_of r)
  = (inr RerunException,
     session_of
       (Entries (points (upload_recorded f r) ++ [[click_x c; click_y c]])
          (image_uploaded_name (upload_recorded f r)) None false
          (reset_counter (upload_recorded f r))),
     header_log ++
     [ st_subheader
         "画像をプレビューして、切り出したいオブジェクトの中心をクリックしてください";
       streamlit_image_coordinates image
         (coordinates_key f (upload_recorded f r)) ]).
Proof.
  intros Hfile Hdec Hc Hnew. rewrite (script_with_file _ _ _ _ Hfile).
  rewrite bind_eq, (main_area_click _ _ _ _ _ Hdec Hc Hnew).
  reflexivity.
Qed.


(** ** What every execution does *)

Lemma predictor_calls_app l1 l2 :
  predictor_calls (l1 ++ l2) = predictor_calls l1 ++ predictor_calls l2.
Proof. apply omap_app. Qed.

Lemma predictor_calls_header : predictor_calls header_log = [].
Proof. reflexivity. Qed.

Lemma predictor_calls_preview f image r :
  predictor_calls (preview_log f image r) = [].
Proof. unfold preview_log. case_bool_decide; reflexivity. Qed.

Lemma predictor_calls_result f out : predictor_calls (result_log f out) = [].
Proof. reflexivity. Qed.

Lemma consistent_blank n k : consistent (Entries [] n None false k).
Proof. split; [apply NoDup_nil_2 | done]. Qed.

Lemma consistent_upload_recorded f r :
  consistent r → consistent (upload_recorded f r).
Proof.
  unfold upload_recorded. case_bool_decide; [|done].
  intros _. apply consistent_blank.
Qed.

(** The click handler either leaves the session as it is or appends and
    reruns. *)
Lemma on_click_any value r :
  ∃ res r',
    on_click value (session_of r) = (res, session_of r', []) ∧
    (consistent r → consistent r') ∧
    (res = inl tt → r' = r).
Proof.
  destruct value as [c|].
  - destruct (decide ([click_x c; click_y c] ∈ points r)) as [Hin|Hnew].
    + eexists _, _. split; [by apply on_click_old|]. done.
    + eexists _, _. split; [by apply on_click_new|].
      split; [|done]. intros [Hnd _]. split; [|done]. cbn [points].
      apply NoDup_app. split_and!; [done | | apply NoDup_singleton].
      intros pt Hpt ->%list_elem_of_singleton. done.
  - exists (inl tt), r. destruct r as [p n s b k]. done.
Qed.

(** The panel either leaves the session as it is or handles a press and
    reruns. *)
Lemma points_panel_any w r :
  ∃ res r' ev,
    points_panel w (session_of r) = (res, session_of r', ev) ∧
    predictor_calls ev = [] ∧
    (consistent r → consistent r') ∧
    (res = inl tt → r' = r).
Proof.
  destruct r as [[|pt p] n s b k];
    destruct (w_button w reset_label) eqn:Hreset;
    destruct (w_button w run_label) eqn:Hrun;
    unfold points_panel, button.
  all: eexists _, _, _; split; [exec; finish|].
  all: split; [reflexivity|]; split; [|done].
  all: first [ done | intros _; apply consistent_blank
             | intros [Hnd _]; by split ].
Qed.


Lemma main_area_any w uf r :
  ∃ res r' ev,
    main_area w uf (session_of r) = (res, session_of r', ev) ∧
    predictor_calls ev = [] ∧
    (consistent r → consistent r') ∧
    (res = inl tt → r' = r).
Proof.
  destruct uf as [f|]; unfold main_area, open_rgb, image_coordinates;
    [|eexists _, _, _; split; [exec; finish|done]].
  destruct (Image_open (file f)) as [e|im] eqn:Hopen;
    [eexists _, _, _; split; [exec; finish|done]|].
  destruct (Image_convert im "RGB") as [e|image] eqn:Hconv;
    [eexists _, _, _; split; [exec; finish|done]|].
  destruct r as [p n s b k].
  destruct (on_click_any
              (w_image_coordinates w
                 ("image_coords_" +:+ name f +:+ "_" +:+ pretty k))
              (Entries p n s b k))
    as ([[]|sg] & r1 & Hc & Hcons1 & Hsame1).
  - rewrite (Hsame1 eq_refl) in Hc. clear Hcons1 Hsame1 r1.
    destruct (points_panel_any w (Entries p n s b k))
      as (res2 & r2 & ev2 & Hp & Hcalls & Hcons2 & Hsame2).
    eexists _, _, _. split; [exec; finish|].
    split; [exact Hcalls|]. split; [exact Hcons2|exact Hsame2].
  - eexists _, _, _. split; [exec; finish|]. done.
Qed.

Lemma segmentation_any pred uf r :
  ∃ res r' ev,
    segmentation pred uf (session_of r) = (res, session_of r', ev) ∧
    (consistent r → consistent r') ∧
    (is_processing r = false → res = inl tt ∧ r' = r ∧ ev = []).
Proof.
  destruct (is_processing r) eqn:Hproc.
  - destruct uf as [f|].
    + unfold segmentation, open_rgb. destruct r as [p n s b k].
      cbn [is_processing] in Hproc. subst b.
      destruct (Image_open (file f)) as [e|im] eqn:Hopen;
        [eexists _, _, _; split; [exec; finish|done]|].
      destruct (Image_convert im "RGB") as [e|image] eqn:Hconv;
        [eexists _, _, _; split; [exec; finish|done]|].
      destruct (attempt_any pred image (Entries p n s true k))
        as (cached & ev & Hatt & _ & _).
      eexists _, _, _. split; [exec; finish|].
      split; [|done]. intros [Hnd _]. by split.
    + destruct r as [p n s b k]. unfold segmentation.
      eexists _, _, _. split; [exec; finish|]. done.
  - eexists _, _, _. split; [by apply segmentation_idle|]. done.
Qed.

(** Every execution of the script from a session with the five entries
    leaves such a session, keeps it consistent, and calls the model only
    when a segmentation was pending. *)
Lemma script_any pred w r :
  ∃ res r' ev,
    script w pred (session_of r) = (res, session_of r', ev) ∧
    (consistent r → consistent r') ∧
    (is_processing r = false → predictor_calls ev = []).
Proof.
  unfold script, page_header, file_uploader.
  destruct (w_file_uploader w) as [f|] eqn:Hfile.
  - pose proof (reset_on_new_upload_of f r) as Hreset.
    destruct (main_area_any w (Some f) (upload_recorded f r))
      as ([[]|sg] & r1 & ev1 & Hmain & Hcalls1 & Hcons1 & Hsame1).
    + rewrite (Hsame1 eq_refl) in Hmain. clear Hcons1 Hsame1 r1.
      destruct (segmentation_any pred (Some f) (upload_recorded f r))
        as ([[]|sg] & r2 & ev2 & Hseg & Hcons2 & Hidle2).
      * destruct (show_result_any (Some f) r2)
          as (res3 & ev3 & Hshow & Hcalls3).
        eexists _, _, _. split; [exec; finish|].
        split; [by intros ?%(consistent_upload_recorded f)%Hcons2|].
        intros Hproc. tidy.
        rewrite !predictor_calls_app, Hcalls1, Hcalls3.
        destruct Hidle2 as (_ & _ & ->); [|done].
        unfold upload_recorded. case_bool_decide; done.
      * eexists _, _, _. split; [exec; finish|].
        split; [by intros ?%(consistent_upload_recorded f)%Hcons2|].
        intros Hproc. destruct Hidle2 as (? & _); [|done].
        unfold upload_recorded. case_bool_decide; done.
    + eexists _, _, _. split; [exec; finish|].
      split; [by intros ?%(consistent_upload_recorded f)%Hcons1|].
      intros _. tidy. rewrite ?predictor_calls_app, Hcalls1. done.
  - unfold reset_on_new_upload.
    destruct (main_area_any w None r)
      as ([[]|sg] & r1 & ev1 & Hmain & Hcalls1 & Hcons1 & Hsame1).
    + rewrite (Hsame1 eq_refl) in Hmain. clear Hcons1 Hsame1 r1.
      destruct (segmentation_any pred None r)
        as ([[]|sg] & r2 & ev2 & Hseg & Hcons2 & Hidle2).
      * destruct (show_result_any None r2)
          as (res3 & ev3 & Hshow & Hcalls3).
        eexists _, _, _. split; [exec; finish|].
        split; [exact Hcons2|].
        intros Hproc. tidy.
        rewrite !predictor_calls_app, Hcalls1, Hcalls3.
        by destruct (Hidle2 Hproc) as (_ & _ & ->).
      * eexists _, _, _. split; [exec; finish|].
        split; [exact Hcons2|].
        intros Hproc. by destruct (Hidle2 Hproc) as (? & _).
    + eexists _, _, _. split; [exec; finish|].
      split; [exact Hcons1|].
      intros _. tidy. rewrite ?predictor_calls_app, Hcalls1. done.
Qed.


(** ** Reachable sessions *)

(** The first execution behaves as on a session that holds the initial
    entries. *)
Lemma script_fresh pred w :
  script w pred ∅ = script w pred (session_of initial).
Proof.
  unfold script, page_header, mbind, M_bind, emit. cbv beta iota.
  rewrite init_fresh, init_of. reflexivity.
Qed.

Lemma app_loaded SAM w pred ss :
  SAM "sam2.1_b.pt" = inr pred →
  session_after (app SAM w ss) = session_after (script w pred ss).
Proof.
  intros Hload. unfold app, load_sam_model. rewrite Hload.
  rewrite !bind_eq, emit_eq. cbv beta iota.
  rewrite ret_eq. cbv beta iota.
  destruct (script w pred ss) as [[res ss'] ev]. reflexivity.
Qed.

Lemma app_not_loaded SAM w e ss :
  SAM "sam2.1_b.pt" = inl e → session_after (app SAM w ss) = ss.
Proof.
  intros Hload. unfold app, load_sam_model. rewrite Hload.
  rewrite !bind_eq, !emit_eq. reflexivity.
Qed.

Lemma session_of_inj r1 r2 : session_of r1 = session_of r2 → r1 = r2.
Proof.
  destruct r1 as [p1 n1 s1 b1 k1], r2 as [p2 n2 s2 b2 k2]. intros Heq.
  pose proof (f_equal (λ m : gmap string value, m !! "points") Heq) as Hp.
  pose proof (f_equal (λ m : gmap string value,
                         m !! "image_uploaded_name") Heq) as Hn.
  pose proof (f_equal (λ m : gmap string value,
                         m !! "segmented_image_rgba") Heq) as Hs.
  pose proof (f_equal (λ m : gmap string value,
                         m !! "is_processing") Heq) as Hb.
  pose proof (f_equal (λ m : gmap string value,
                         m !! "reset_counter") Heq) as Hk.
  vm_compute in Hp, Hn, Hs, Hb, Hk.
  destruct n1, n2, s1, s2; simplify_eq; reflexivity.
Qed.

Lemma session_of_not_empty r : session_of r ≠ ∅.
Proof.
  intros Heq.
  pose proof (f_equal (λ m : gmap string value, m !! "points") Heq) as Hp.
  vm_compute in Hp. discriminate.
Qed.

(** A browser session holds nothing, or the five entries in a consistent
    state. *)
Lemma reachable_initialised ss :
  reachable ss → ss = ∅ ∨ ∃ r, ss = session_of r ∧ consistent r.
Proof.
  induction 1 as [|SAM w ss Hreach IH]; [by left|].
  destruct (SAM "sam2.1_b.pt") as [e|pred] eqn:Hload.
  - by rewrite (app_not_loaded _ _ _ _ Hload).
  - rewrite (app_loaded _ _ _ _ Hload). right.
    assert (∃ r, consistent r ∧ script w pred ss = script w pred (session_of r))
      as (r & Hcons & ->).
    { destruct IH as [->|(r & -> & Hcons)].
      - exists initial. split; [apply consistent_blank|apply script_fresh].
      - by exists r. }
    destruct (script_any pred w r) as (res & r' & ev & -> & Hcons' & _).
    exists r'. split; [reflexivity|by apply Hcons'].
Qed.


(** ** Which executions render the run button or call the model *)

(** The main area, when the reset button is pressed. *)
Lemma main_area_reset w f image r :
  decodes f image → no_new_click w f r → points r ≠ [] →
  w_button w reset_label = true →
  main_area w (Some f) (session_of r)
  = (inr RerunException,
     session_of (Entries [] (image_uploaded_name r) None false
                   (reset_counter r + 1)),
     [ st_subheader
         "画像をプレビューして、切り出したいオブジェクトの中心をクリックしてください";
       streamlit_image_coordinates image (coordinates_key f r);
       st_info ("選択された点: " +:+ repr_points (points r));
       st_columns 2; st_button reset_label ]).
Proof.
  intros Hdec Hclick Hpts Hreset. destruct r as [p n s b k].
  unfold no_new_click, coordinates_key in Hclick. cbn in Hclick, Hpts.
  unfold main_area, image_coordinates, points_panel, button, coordinates_key.
  rewrite bind_eq, (open_rgb_decodes _ _ _ Hdec). exec.
  destruct (w_image_coordinates w _) as [c|] eqn:Hc.
  - specialize (Hclick c eq_refl).
    rewrite (on_click_old c (Entries p n s b k) Hclick).
    exec; finish.
  - unfold on_click. exec; finish.
Qed.

Lemma main_area_undecoded w f r :
  (∀ image, ¬ decodes f image) →
  ∃ e, main_area w (Some f) (session_of r) = (inr (Raised e), session_of r, []).
Proof.
  intros Hno. unfold main_area, open_rgb.
  destruct (Image_open (file f)) as [e|im] eqn:Hopen;
    [eexists; exec; finish|].
  destruct (Image_convert im "RGB") as [e|image] eqn:Hconv;
    [eexists; exec; finish|].
  destruct (Hno image). by exists im.
Qed.

(** The five ways through the main area of an uploaded file. *)
Lemma main_area_cases w f r :
  (∃ e, main_area w (Some f) (session_of r)
        = (inr (Raised e), session_of r, []))
  ∨ ∃ image, decodes f image ∧
      ((∃ c ss, ([click_x c; click_y c] ∉ points r) ∧
          main_area w (Some f) (session_of r)
          = (inr RerunException, ss,
             [ st_subheader
                 "画像をプレビューして、切り出したいオブジェクトの中心をクリックしてください";
               streamlit_image_coordinates image (coordinates_key f r) ]))
       ∨ (no_new_click w f r ∧
          ((no_press w r ∧
            main_area w (Some f) (session_of r)
            = (inl tt, session_of r, preview_log f image r))
           ∨ (∃ ss, points r ≠ [] ∧ w_button w reset_label = true ∧
                main_area w (Some f) (session_of r)
                = (inr RerunException, ss,
                   [ st_subheader
                       "画像をプレビューして、切り出したいオブジェクトの中心をクリックしてください";
                     streamlit_image_coordinates image (coordinates_key f r);
                     st_info ("選択された点: " +:+ repr_points (points r));
                     st_columns 2; st_button reset_label ]))
           ∨ (∃ ss, points r ≠ [] ∧ w_button w reset_label = false ∧
                w_button w run_label = true ∧
                main_area w (Some f) (session_of r)
                = (inr RerunException, ss, preview_log f image r))))).
Proof.
  destruct (Image_open (file f)) as [e|im] eqn:Hopen.
  { left. apply main_area_undecoded. intros image (im' & Him & _). congruence. }
  destruct (Image_convert im "RGB") as [e|image] eqn:Hconv.
  { left. apply main_area_undecoded. intros image (im' & Him & Hc). congruence. }
  assert (decodes f image) as Hdec by (by exists im).
  right. exists image. split; [done|].
  destruct (w_image_coordinates w (coordinates_key f r)) as [c|] eqn:Hc.
  - destruct (decide ([click_x c; click_y c] ∈ points r)) as [Hin|Hnew].
    + right. assert (no_new_click w f r) as Hclick.
      { intros c' Hc'. congruence. }
      split; [done|].
      destruct (decide (points r = [])) as [Hempty|Hpts].
      { left. split; [by left|]. apply main_area_idle; [done..|by left]. }
      destruct (w_button w reset_label) eqn:Hreset.
      { right. left. eexists. split_and!; [done..|]. by apply main_area_reset. }
      destruct (w_button w run_label) eqn:Hrun.
      { right. right. eexists. split_and!; [done..|]. by apply main_area_run. }
      left. split; [by right|]. apply main_area_idle; [done..|by right].
    + left. eexists c, _. split; [done|]. by apply main_area_click.
  - right. assert (no_new_click w f r) as Hclick.
    { intros c' Hc'. congruence. }
    split; [done|].
    destruct (decide (points r = [])) as [Hempty|Hpts].
    { left. split; [by left|]. apply main_area_idle; [done..|by left]. }
    destruct (w_button w reset_label) eqn:Hreset.
    { right. left. eexists. split_and!; [done..|]. by apply main_area_reset. }
    destruct (w_button w run_label) eqn:Hrun.
    { right. right. eexists. split_and!; [done..|]. by apply main_area_run. }
    left. split; [by right|]. apply main_area_idle; [done..|by right].
Qed.

Ltac run_log :=
  match goal with
  | |- context [log ?x] =>
      let Hx := fresh in
      eassert (x = _) as Hx by (exec; finish); rewrite Hx
  end.

Lemma buttons_app l1 l2 : buttons (l1 ++ l2) = buttons l1 ++ buttons l2.
Proof. apply omap_app. Qed.

Lemma buttons_preview f image r :
  buttons (preview_log f image r)
  = if bool_decide (points r ≠ []) then [reset_label; run_label] else [].
Proof. unfold preview_log. case_bool_decide; reflexivity. Qed.

Lemma reset_label_not_run_label : reset_label ≠ run_label.
Proof. discriminate. Qed.

(** Neither the segmentation nor the display renders a button. *)
Lemma attempt_buttons pred image r :
  buttons (log (attempt pred image (np_array image) (session_of r))) = [].
Proof.
  unfold attempt, try_except_finally, on_error, after_predict.
  rewrite predict_eq. destruct r as [p n s b k]. tidy.
  repeat case_split; cbv beta iota zeta.
  all: run_log; reflexivity.
Qed.

Lemma segmentation_buttons pred uf r :
  buttons (log (segmentation pred uf (session_of r))) = [].
Proof.
  destruct (is_processing r) eqn:Hproc;
    [|by rewrite (segmentation_idle _ _ _ Hproc)].
  destruct uf as [f|].
  - destruct (Image_open (file f)) as [e|im] eqn:Hopen;
      [|destruct (Image_convert im "RGB") as [e|image] eqn:Hconv].
    + destruct r as [p n s b k]. cbn [is_processing] in Hproc. subst b.
      unfold segmentation, open_rgb.
      run_log. reflexivity.
    + destruct r as [p n s b k]. cbn [is_processing] in Hproc. subst b.
      unfold segmentation, open_rgb.
      run_log. reflexivity.
    + assert (decodes f image) as Hdec by (by exists im).
      rewrite (segmentation_attempt _ _ _ _ Hdec Hproc).
      pose proof (attempt_buttons pred image r) as Hatt.
      destruct (attempt _ _ _ _) as [[res ss] ev]. tidy.
      by rewrite buttons_app, Hatt.
  - destruct r as [p n s b k]. unfold segmentation.
    run_log. reflexivity.
Qed.

Lemma show_result_buttons uf r :
  buttons (log (show_result uf (session_of r))) = [].
Proof.
  destruct r as [p n [out|] b k], uf as [f|]; unfold show_result.
  all: run_log; reflexivity.
Qed.

Lemma upload_recorded_cases f r :
  (image_uploaded_name r = Some (name f) ∧ upload_recorded f r = r)
  ∨ (image_uploaded_name r ≠ Some (name f) ∧
     upload_recorded f r = Entries [] (Some (name f)) None false 0).
Proof.
  unfold upload_recorded. case_bool_decide as Hn; [by right|by left].
Qed.

Lemma segmentation_no_file pred r :
  segmentation pred None (session_of r) = (inl tt, session_of r, []).
Proof. destruct r as [p n s b k]. unfold segmentation. exec. finish. Qed.

(** What follows the main area renders no button, and calls the model
    only when a segmentation is pending on an uploaded file. *)
Lemma after_main_area pred uf r :
  let rest := (segmentation pred uf;; show_result uf) (session_of r) in
  buttons (log rest) = [] ∧
  (is_processing r = false ∨ uf = None → predictor_calls (log rest) = []).
Proof.
  intros rest. subst rest. rewrite bind_eq.
  pose proof (segmentation_buttons pred uf r) as Hb.
  destruct (segmentation_any pred uf r) as (res & r' & ev & Hseg & _ & Hidle).
  rewrite Hseg in *. tidy.
  assert (is_processing r = false ∨ uf = None → ev = [] ∧ res = inl tt)
    as Hquiet.
  { intros [Hproc| ->]; [by destruct (Hidle Hproc) as (-> & _ & ->)|].
    rewrite segmentation_no_file in Hseg. by simplify_eq. }
  destruct res as [[]|sg]; cbv beta iota; tidy.
  - pose proof (show_result_buttons uf r') as Hb'.
    destruct (show_result_any uf r') as (res3 & ev3 & Hshow & Hcalls3).
    rewrite Hshow in *. cbv beta iota. tidy. rewrite buttons_app, Hb, Hb'.
    split; [done|]. intros [-> _]%Hquiet.
    by rewrite predictor_calls_app, Hcalls3.
  - split; [done|]. by intros [_ ?]%Hquiet.
Qed.

(** The execution, when neither a click nor a press is handled. *)
Lemma script_idle pred w f image r :
  on_screen w f image r → no_press w r →
  script w pred (session_of r)
  = match (segmentation pred (Some f);; show_result (Some f))
            (session_of r) with
    | (res, ss, ev) =>
        (res, ss, header_log ++ preview_log f image r ++ ev)
    end.
Proof.
  intros Hscreen Hpress. on_path Hscreen.
  rewrite bind_eq, (main_area_idle _ _ _ _ Hdec Hclick Hpress).
  cbv beta iota.
  destruct ((segmentation pred (Some f);; show_result (Some f))
              (session_of r)) as [[res ss] ev].
  reflexivity.
Qed.

Lemma script_no_file_eq pred w r :
  w_file_uploader w = None →
  script w pred (session_of r)
  = match show_result None (session_of r) with
    | (res, ss, ev) =>
        (res, ss,
         header_log ++
         [st_info "画像をアップロードして開始してください。"] ++ ev)
    end.
Proof.
  intros Hfile.
  unfold script, page_header, file_uploader, reset_on_new_upload, main_area.
  rewrite Hfile.
  pose proof (segmentation_no_file pred r) as Hseg.
  destruct (show_result None (session_of r)) as [[res ss] ev] eqn:Hshow.
  exec. finish.
Qed.

Lemma script_no_file pred w r :
  w_file_uploader w = None →
  buttons (log (script w pred (session_of r))) = [] ∧
  predictor_calls (log (script w pred (session_of r))) = [].
Proof.
  intros Hfile. rewrite (script_no_file_eq _ _ _ Hfile).
  pose proof (show_result_buttons None r) as Hb.
  destruct (show_result_any None r) as (res & ev & Hshow & Hc).
  rewrite Hshow in *. tidy. split; [exact Hb|exact Hc].
Qed.

(** The run button is rendered and reports a press only when the
    picture of the recorded upload is on the page with points selected
    and the reset button not pressed. *)
Lemma press_is_on_screen pred w r :
  w_button w run_label = true →
  run_label ∈ buttons (log (script w pred (session_of r))) →
  ∃ f image,
    on_screen w f image r ∧ points r ≠ [] ∧
    w_button w reset_label = false.
Proof.
  intros Hrun Hin.
  destruct (w_file_uploader w) as [f|] eqn:Hfile;
    [|by rewrite (proj1 (script_no_file pred w r Hfile)) in Hin;
      apply elem_of_nil in Hin].
  rewrite (script_with_file _ _ _ _ Hfile), bind_eq in Hin.
  destruct (main_area_cases w f (upload_recorded f r))
    as [(e & Hm)
       |(image & Hdec &
         [(c & ss & Hnew & Hm)
         |(Hclick &
           [(Hpress & Hm)
           |[(ss & Hpts & Hreset & Hm)|(ss & Hpts & Hreset & _ & Hm)]])])];
    rewrite Hm in Hin; cbv beta iota in Hin.
  - by apply elem_of_nil in Hin.
  - by apply elem_of_nil in Hin.
  - destruct (after_main_area pred (Some f) (upload_recorded f r))
      as [Hb _]. cbv zeta in Hb.
    destruct ((segmentation pred (Some f);; show_result (Some f)) _)
      as [[res ss] ev].
    tidy. rewrite !buttons_app, buttons_preview, Hb in Hin.
    case_bool_decide as Hpts; [|by apply elem_of_nil in Hin].
    destruct Hpress as [?|[_ ?]]; [done|congruence].
  - tidy. apply list_elem_of_singleton in Hin.
    by destruct reset_label_not_run_label.
  - destruct (upload_recorded_cases f r) as [[Hname Heq]|[_ Heq]];
      rewrite Heq in *; [|done].
    exists f, image. by split_and!.
Qed.

(** The model is called only when a segmentation is pending on the
    picture of the recorded upload and neither a click nor a press is
    handled. *)
Lemma call_is_pending pred w r :
  predictor_calls (log (script w pred (session_of r))) ≠ [] →
  ∃ f image,
    on_screen w f image r ∧ no_press w r ∧ is_processing r = true.
Proof.
  intros Hcalls.
  destruct (w_file_uploader w) as [f|] eqn:Hfile;
    [|by rewrite (proj2 (script_no_file pred w r Hfile)) in Hcalls].
  rewrite (script_with_file _ _ _ _ Hfile), bind_eq in Hcalls.
  destruct (main_area_cases w f (upload_recorded f r))
    as [(e & Hm)
       |(image & Hdec &
         [(c & ss & Hnew & Hm)
         |(Hclick &
           [(Hpress & Hm)
           |[(ss & Hpts & Hreset & Hm)|(ss & Hpts & Hreset & _ & Hm)]])])];
    rewrite Hm in Hcalls; cbv beta iota in Hcalls; try done.
  - destruct (after_main_area pred (Some f) (upload_recorded f r))
      as [_ Hquiet]. cbv zeta in Hquiet.
    destruct ((segmentation pred (Some f);; show_result (Some f)) _)
      as [[res ss] ev].
    tidy. rewrite !predictor_calls_app, predictor_calls_preview in Hcalls.
    destruct (is_processing (upload_recorded f r)) eqn:Hproc;
      [|by rewrite Hquiet in Hcalls; [|left]].
    destruct (upload_recorded_cases f r) as [[Hname Heq]|[_ Heq]];
      rewrite Heq in *; [|done].
    exists f, image. by split_and!.
  - tidy. by rewrite !predictor_calls_app, predictor_calls_preview in Hcalls.
Qed.

(** ** Entries that are not the script's *)

Create HintDb carries.

Section Frame.
Variable extra : gmap string value.
Hypothesis Hforeign : foreign extra.

Lemma lookup_foreign key (ss : gmap string value) :
  key ∈ session_keys → (ss ∪ extra) !! key = ss !! key.
Proof.
  intros Hkey. rewrite lookup_union, (Hforeign key Hkey).
  by destruct (ss !! key).
Qed.

Lemma carries_ret {A} (a : A) : carries extra (mret a).
Proof. by intros ss. Qed.

Lemma carries_emit e : carries extra (emit e).
Proof. by intros ss. Qed.

Lemma carries_throw {A} sg : carries extra (throw sg : M A).
Proof. by intros ss. Qed.

Lemma carries_call {A} (r : exn + A) : carries extra (call r).
Proof. by destruct r. Qed.

Lemma carries_bind {A B} (m : M A) (k : A → M B) :
  carries extra m → (∀ a, carries extra (k a)) → carries extra (m ≫= k).
Proof.
  intros Hm Hk ss. rewrite !bind_eq, Hm.
  destruct (m ss) as [[[a|sg] ss1] ev1]; [|done].
  rewrite Hk. by destruct (k a ss1) as [[res ss2] ev2].
Qed.

Lemma carries_when b m : carries extra m → carries extra (when b m).
Proof. destruct b; [done|]. intros _. apply carries_ret. Qed.

Lemma carries_try body handler final :
  carries extra body → (∀ e, carries extra (handler e)) →
  carries extra final →
  carries extra (try_except_finally body handler final).
Proof.
  intros Hbody Hhandler Hfinal ss. unfold try_except_finally.
  rewrite Hbody. destruct (body ss) as [[[[]|[| |e]] ss1] ev1].
  - rewrite Hfinal. by destruct (final ss1) as [[[[]|sg] ss3] ev3].
  - rewrite Hfinal. by destruct (final ss1) as [[[[]|sg] ss3] ev3].
  - rewrite Hfinal. by destruct (final ss1) as [[[[]|sg] ss3] ev3].
  - rewrite Hhandler. destruct (handler e ss1) as [[res ss2] ev2].
    rewrite Hfinal. by destruct (final ss2) as [[[[]|sg] ss3] ev3].
Qed.

Lemma carries_contains key :
  key ∈ session_keys → carries extra (contains key).
Proof. intros Hkey ss. unfold contains. by rewrite lookup_foreign. Qed.

Lemma carries_setattr key v : carries extra (setattr key v).
Proof. intros ss. unfold setattr. by rewrite insert_union_l. Qed.

Lemma carries_getattr key :
  key ∈ session_keys → carries extra (getattr key).
Proof.
  intros Hkey ss. unfold getattr. rewrite lookup_foreign by done.
  by destruct (ss !! key).
Qed.

Ltac own := unfold session_keys; set_solver.

Ltac carry :=
  repeat first
    [ solve [auto with carries nocore]
    | apply carries_ret | apply carries_emit | apply carries_throw
    | apply carries_call | apply carries_setattr
    | apply carries_contains; own | apply carries_getattr; own
    | apply carries_when
    | apply carries_bind; [|intros ?]
    | apply carries_try; [|intros ?|]
    | match goal with
      | |- carries _ (match ?x with _ => _ end) => destruct x
      end
    | progress cbv zeta ].

Lemma carries_get_points : carries extra (get_points "points").
Proof. unfold get_points, raise. carry. Qed.

Lemma carries_get_bool : carries extra (get_bool "is_processing").
Proof. unfold get_bool, raise. carry. Qed.

Lemma carries_get_int : carries extra (get_int "reset_counter").
Proof. unfold get_int, raise. carry. Qed.

Lemma carries_get_name : carries extra (get_name "image_uploaded_name").
Proof. unfold get_name, raise. carry. Qed.

Lemma carries_get_image : carries extra (get_image "segmented_image_rgba").
Proof. unfold get_image, raise. carry. Qed.

#[local] Hint Resolve carries_get_points carries_get_bool carries_get_int
  carries_get_name carries_get_image : carries.

Lemma carries_init : carries extra init_session_state.
Proof. unfold init_session_state. carry. Qed.

Lemma carries_reset_on_new_upload uf :
  carries extra (reset_on_new_upload uf).
Proof. unfold reset_on_new_upload. carry. Qed.

Lemma carries_open_rgb f : carries extra (open_rgb f).
Proof. unfold open_rgb. carry. Qed.

Lemma carries_on_click value : carries extra (on_click value).
Proof. unfold on_click, st_rerun. carry. Qed.

Lemma carries_points_panel w : carries extra (points_panel w).
Proof. unfold points_panel, button, st_rerun. carry. Qed.

#[local] Hint Resolve carries_init carries_reset_on_new_upload
  carries_open_rgb carries_on_click carries_points_panel : carries.

Lemma carries_main_area w uf : carries extra (main_area w uf).
Proof. unfold main_area, image_coordinates. carry. Qed.

Lemma carries_predict pred image image_np :
  carries extra (predict pred image image_np).
Proof. unfold predict, has_mask, first_mask, raise. carry. Qed.

Lemma carries_attempt pred image image_np :
  carries extra (attempt pred image image_np).
Proof.
  unfold attempt, on_error, after_predict, st_rerun.
  apply carries_try; [apply carries_predict|intros e; carry|carry].
Qed.

#[local] Hint Resolve carries_main_area carries_attempt : carries.

Lemma carries_segmentation pred uf : carries extra (segmentation pred uf).
Proof. unfold segmentation. carry. Qed.

Lemma carries_show_result uf : carries extra (show_result uf).
Proof. unfold show_result, raise. carry. Qed.

#[local] Hint Resolve carries_segmentation carries_show_result : carries.

Lemma carries_script w pred : carries extra (script w pred).
Proof. unfold script, page_header, file_uploader. carry. Qed.

Lemma carries_app SAM w : carries extra (app SAM w).
Proof.
  unfold app, load_sam_model, st_stop.
  apply carries_bind; [carry|intros pred; apply carries_script].
Qed.

End Frame.

(** * The claims *)

Lemma on_screen_released w f image r cached b :
  on_screen w f image r →
  on_screen (released w) f image
    (Entries (points r) (image_uploaded_name r) cached b (reset_counter r)).
Proof. intros (Hfile & Hname & Hdec & Hclick). by split_and!. Qed.

(** C1.  Every press of the segmentation button, that is every
    execution that renders the button and gets [True] from it, calls
    the model exactly once, in the rerun that the press requests, with
    the array of the uploaded picture, the session's list of points as
    an array in insertion order, and one label 1 per point; the
    execution of the press itself makes no call. *)
Theorem run_button_invokes_model pred w r :
  w_button w run_label = true →
  run_label ∈ buttons (log (script w pred (session_of r))) →
  let press := script w pred (session_of r) in
  let rerun := script (released w) pred (session_after press) in
  outcome press = inr RerunException ∧
  predictor_calls (log press) = [] ∧
  ∃ f image,
    w_file_uploader w = Some f ∧ decodes f image ∧
    predictor_calls (log rerun)
    = [(np_array image, np_array_points (points r),
        np_ones (length (points r)))].
Proof.
  intros Hrun Hin press rerun. subst press rerun.
  destruct (press_is_on_screen _ _ _ Hrun Hin)
    as (f & image & Hscreen & Hpts & Hreset).
  rewrite (script_press _ _ _ _ _ Hscreen Hpts Hreset Hrun). tidy.
  split; [reflexivity|]. split.
  { by rewrite predictor_calls_app, predictor_calls_header,
      predictor_calls_preview. }
  exists f, image.
  split; [apply Hscreen|]. split; [apply Hscreen|].
  set (r1 := Entries (points r) (image_uploaded_name r) None true
               (reset_counter r)).
  destruct (attempt_any pred image r1) as (cached & ev & Hatt & Hcalls & _).
  rewrite (script_attempt pred (released w) f image r1 _ _ _
             (on_screen_released _ _ _ _ None true Hscreen)
             (or_intror (conj eq_refl eq_refl)) eq_refl Hatt).
  tidy. rewrite !predictor_calls_app, predictor_calls_header,
    predictor_calls_preview, Hcalls. reflexivity.
Qed.

(** C2, as amended.  A click on the displayed picture at a coordinate
    that the session's list of points (as it is once the upload is
    recorded) does not hold yet appends [[x, y]] at the end of the list,
    clears the cached result and the flag, and requests a rerun. *)
Theorem click_appends_new_point pred w f image r c :
  w_file_uploader w = Some f → decodes f image →
  w_image_coordinates w (coordinates_key f (upload_recorded f r)) = Some c →
  [click_x c; click_y c] ∉ points (upload_recorded f r) →
  let run := script w pred (session_of r) in
  outcome run = inr RerunException ∧
  session_after run
  = session_of
      (Entries (points (upload_recorded f r) ++ [[click_x c; click_y c]])
         (Some (name f)) None false
         (reset_counter (upload_recorded f r))).
Proof.
  intros Hfile Hdec Hc Hnew run. subst run.
  rewrite (script_click _ _ _ _ _ _ Hfile Hdec Hc Hnew). tidy.
  split; [reflexivity|].
  assert (image_uploaded_name (upload_recorded f r) = Some (name f)) as ->;
    [|reflexivity].
  unfold upload_recorded. by case_bool_decide.
Qed.

(** C9.  When a file is uploaded under another name than the recorded
    one, lines 83-91 empty the list of points, clear the cached result,
    switch the flag off and set the counter to 0 (and record the name),
    and everything after them in the execution runs on that session. *)
Theorem new_upload_resets_session pred w f r :
  w_file_uploader w = Some f →
  image_uploaded_name r ≠ Some (name f) →
  reset_on_new_upload (Some f) (session_of r)
  = (inl tt, session_of (Entries [] (Some (name f)) None false 0), []) ∧
  script w pred (session_of r)
  = match (main_area w (Some f);; segmentation pred (Some f);;
           show_result (Some f))
            (session_of (Entries [] (Some (name f)) None false 0)) with
    | (res, ss, ev) => (res, ss, header_log ++ ev)
    end.
Proof.
  intros Hfile Hname.
  assert (upload_recorded f r = Entries [] (Some (name f)) None false 0)
    as Hblank.
  { unfold upload_recorded. by rewrite bool_decide_eq_true_2. }
  split.
  - by rewrite reset_on_new_upload_of, Hblank.
  - by rewrite (script_with_file _ _ _ _ Hfile), Hblank.
Qed.


Lemma reachable_consistent r : reachable (session_of r) → consistent r.
Proof.
  intros [Hempty|(r' & Heq & Hcons)]%reachable_initialised.
  - by apply session_of_not_empty in Hempty.
  - by apply session_of_inj in Heq as ->.
Qed.


(** C8.  In every session a browser can reach the list of points has no
    duplicates, and the click handler (lines 111-122) leaves the whole
    session, so the list, the cached result and the flag, as it is on a
    click at a coordinate the list already holds; it logs nothing and
    requests no rerun. *)
Theorem points_never_duplicated ss pts :
  reachable ss → ss !! "points" = Some (VPoints pts) →
  NoDup pts ∧
  ∀ c, [click_x c; click_y c] ∈ pts →
       on_click (Some c) ss = (inl tt, ss, []).
Proof.
  intros [->|(r & -> & Hcons)]%reachable_initialised Hpts; [done|].
  assert (pts = points r) as ->.
  { destruct r. vm_compute in Hpts. by simplify_eq. }
  split; [apply Hcons|]. intros c Hin. by apply on_click_old.
Qed.

Lemma errors_app l1 l2 : errors (l1 ++ l2) = errors l1 ++ errors l2.
Proof. apply omap_app. Qed.

Lemma errors_preview f image r : errors (preview_log f image r) = [].
Proof. unfold preview_log. by case_bool_decide. Qed.

(** C4.  When the model raises, the handler passes [str(e)] unchanged
    to [st.error] (after a fixed prefix), for every exception alike and
    after one call of the model; but the [finally] block ends that
    execution in [st.rerun()], and the execution that follows at once,
    whose page is the one the user is left with, returns without
    calling the model and without a single [st.error]: the message is
    on no page that stays. *)
Theorem segmentation_error_lost_in_rerun pred w f image r e :
  on_screen w f image r → no_press w r → is_processing r = true →
  pred (np_array image) (np_array_points (points r))
       (np_ones (length (points r))) = inl e →
  let run := script w pred (session_of r) in
  let rerun := script (released w) pred (session_after run) in
  errors (log run)
  = [ "セグメンテーション中にエラーが発生しました: " +:+ exn_str e;
      "モデルの入力点や画像の形式を確認してください。" ] ∧
  predictor_calls (log run)
  = [(np_array image, np_array_points (points r),
      np_ones (length (points r)))] ∧
  outcome run = inr RerunException ∧
  outcome rerun = inl tt ∧
  errors (log rerun) = [] ∧
  predictor_calls (log rerun) = [] ∧
  session_after rerun = session_after run.
Proof.
  intros Hscreen Hpress Hproc Hpred run rerun. subst rerun run.
  rewrite (script_attempt _ _ _ _ _ _ _ _ Hscreen Hpress Hproc
             (attempt_raise _ _ _ _ Hpred)).
  unfold outcome, session_after, log. cbn [fst snd].
  set (r1 := Entries (points r) (image_uploaded_name r)
               (segmented_image_rgba r) false (reset_counter r)).
  assert (on_screen (released w) f image r1) as Hscreen1
    by (by apply on_screen_released).
  assert (no_press (released w) r1) as Hpress1 by (by right).
  rewrite (script_idle _ _ _ _ _ Hscreen1 Hpress1), bind_eq,
    (segmentation_idle pred (Some f) r1 eq_refl).
  cbv beta iota.
  rewrite !errors_app, !predictor_calls_app, errors_preview,
    predictor_calls_header, predictor_calls_preview.
  split_and!; [reflexivity..| | | |].
  - destruct (segmented_image_rgba r) as [out|] eqn:Hout.
    + by rewrite (show_result_cached f out r1 eq_refl).
    + by rewrite (show_result_none (Some f) r1 eq_refl).
  - destruct (segmented_image_rgba r) as [out|] eqn:Hout.
    + rewrite (show_result_cached f out r1 eq_refl). cbn [snd].
      by rewrite !errors_app, errors_preview.
    + rewrite (show_result_none (Some f) r1 eq_refl). cbn [snd].
      by rewrite !errors_app, errors_preview.
  - destruct (show_result_any (Some f) r1) as (res & ev & -> & Hcalls).
    cbn [snd].
    by rewrite !predictor_calls_app, predictor_calls_header,
      predictor_calls_preview, Hcalls.
  - by destruct (show_result_any (Some f) r1) as (res & ev & -> & _).
Qed.


(** A successful segmentation, and the execution that follows it. *)
Lemma script_success_then_show pred w f image r r0 rest m t ts
    mask_image out :
  on_screen w f image r →
  w_button w reset_label = false → w_button w run_label = false →
  is_processing r = true →
  pred (np_array image) (np_array_points (points r))
       (np_ones (length (points r))) = inr (r0 :: rest) →
  masks r0 = Some m → data m = Some (t :: ts) →
  Image_fromarray (cpu_numpy t) = inr mask_image →
  Image_paste (Image_new "RGBA" (Image_size image)) image mask_image
    = inr out →
  let r1 := Entries (points r) (image_uploaded_name r) (Some out) false
              (reset_counter r) in
  script w pred (session_of r)
  = (inr RerunException, session_of r1,
     header_log ++ preview_log f image r ++ spinner_log ++
     [predictor_call (np_array image) (np_array_points (points r))
        (np_ones (length (points r)))]) ∧
  script (released w) pred (session_of r1)
  = (inl tt, session_of r1,
     header_log ++ preview_log f image r1 ++ result_log f out).
Proof.
  intros Hscreen Hreset Hrun Hproc Hpred Hmasks Hdata Hmask Hpaste r1.
  split.
  - apply (script_attempt _ _ _ _ _ _ _ _ Hscreen
             (or_intror (conj Hreset Hrun)) Hproc).
    by eapply attempt_success.
  - apply (script_show pred (released w) f image r1 out
             (on_screen_released _ _ _ _ (Some out) false Hscreen));
      [by right|done..].
Qed.

Lemma displayed_images_app l1 l2 :
  displayed_images (l1 ++ l2) = displayed_images l1 ++ displayed_images l2.
Proof. apply omap_app. Qed.

Lemma displayed_images_preview f image r :
  displayed_images (preview_log f image r) = [].
Proof. unfold preview_log. case_bool_decide; reflexivity. Qed.

Lemma downloads_app l1 l2 : downloads (l1 ++ l2) = downloads l1 ++ downloads l2.
Proof. apply omap_app. Qed.

Lemma downloads_preview f image r : downloads (preview_log f image r) = [].
Proof. unfold preview_log. case_bool_decide; reflexivity. Qed.

(** C5.  After a successful segmentation the cached result is the
    uploaded picture pasted, through the model's mask as Pillow reads
    it, on a new RGBA canvas of the picture's size; the next execution
    displays exactly that image and no other. *)
Theorem result_is_picture_pasted_through_mask pred w f image r r0 rest m
    t ts mask_image out :
  on_screen w f image r →
  w_button w reset_label = false → w_button w run_label = false →
  is_processing r = true →
  pred (np_array image) (np_array_points (points r))
       (np_ones (length (points r))) = inr (r0 :: rest) →
  masks r0 = Some m → data m = Some (t :: ts) →
  Image_fromarray (cpu_numpy t) = inr mask_image →
  Image_paste (Image_new "RGBA" (Image_size image)) image mask_image
    = inr out →
  let run := script w pred (session_of r) in
  let show := script (released w) pred (session_after run) in
  session_after run
  = session_of (Entries (points r) (image_uploaded_name r) (Some out)
                  false (reset_counter r)) ∧
  displayed_images (log run) = [] ∧
  displayed_images (log show) = [out] ∧
  session_after show = session_after run.
Proof.
  intros Hscreen Hreset Hrun Hproc Hpred Hmasks Hdata Hmask Hpaste run show.
  destruct (script_success_then_show _ _ _ _ _ _ _ _ _ _ _ _ Hscreen Hreset
              Hrun Hproc Hpred Hmasks Hdata Hmask Hpaste) as [Hfirst Hnext].
  subst run show. rewrite Hfirst. tidy. rewrite Hnext. tidy.
  rewrite !displayed_images_app, !displayed_images_preview.
  by split_and!.
Qed.

(** C6.  After a successful segmentation the next execution offers one
    download: the cached RGBA result saved by Pillow in PNG format, as
    [segmented_<stem>.png] with MIME type [image/png]. *)
Theorem download_is_png_of_result pred w f image r r0 rest m t ts
    mask_image out :
  on_screen w f image r →
  w_button w reset_label = false → w_button w run_label = false →
  is_processing r = true →
  pred (np_array image) (np_array_points (points r))
       (np_ones (length (points r))) = inr (r0 :: rest) →
  masks r0 = Some m → data m = Some (t :: ts) →
  Image_fromarray (cpu_numpy t) = inr mask_image →
  Image_paste (Image_new "RGBA" (Image_size image)) image mask_image
    = inr out →
  let run := script w pred (session_of r) in
  let show := script (released w) pred (session_after run) in
  downloads (log run) = [] ∧
  downloads (log show)
  = [(Image_save out "PNG",
      "segmented_" +:+ split_dot_0 (name f) +:+ ".png", "image/png")] ∧
  outcome show = inl tt.
Proof.
  intros Hscreen Hreset Hrun Hproc Hpred Hmasks Hdata Hmask Hpaste run show.
  destruct (script_success_then_show _ _ _ _ _ _ _ _ _ _ _ _ Hscreen Hreset
              Hrun Hproc Hpred Hmasks Hdata Hmask Hpaste) as [Hfirst Hnext].
  subst run show. rewrite Hfirst. tidy. rewrite Hnext. tidy.
  rewrite !downloads_app, !downloads_preview.
  by split_and!.
Qed.


Lemma decodes_inj f image1 image2 :
  decodes f image1 → decodes f image2 → image1 = image2.
Proof. intros (im1 & Ho1 & Hc1) (im2 & Ho2 & Hc2). congruence. Qed.

(** C10.  In every session a browser can reach, an execution that
    calls the model, so every segmentation attempt, starts with no
    cached result and ends, in a rerun, with the flag switched off
    whatever the body of the [try] does; when that body raises, the
    cached result is still [None]. *)
Theorem processing_flag_cleared_after_attempt pred w ss :
  reachable ss →
  predictor_calls (log (script w pred ss)) ≠ [] →
  let run := script w pred ss in
  ss !! "segmented_image_rgba" = Some VNone ∧
  outcome run = inr RerunException ∧
  session_after run !! "is_processing" = Some (VBool false) ∧
  ∀ f image e,
    w_file_uploader w = Some f → decodes f image →
    outcome (predict pred image (np_array image) ss) = inr (Raised e) →
    session_after run !! "segmented_image_rgba" = Some VNone.
Proof.
  intros Hreach Hcalls run. subst run.
  apply reachable_initialised in Hreach as [->|(r & -> & [_ Hnone])].
  { rewrite script_fresh in Hcalls.
    by destruct (call_is_pending _ _ _ Hcalls) as (? & ? & _ & _ & ?). }
  destruct (call_is_pending _ _ _ Hcalls)
    as (f & image & Hscreen & Hpress & Hproc).
  specialize (Hnone Hproc).
  destruct (attempt_any pred image r) as (cached & ev & Hatt & _ & Hkeep).
  rewrite (script_attempt _ _ _ _ _ _ _ _ Hscreen Hpress Hproc Hatt). tidy.
  destruct r as [p n s b k]. cbn [segmented_image_rgba] in *. subst s.
  split_and!; [reflexivity..|].
  intros f' image' e Hfile' Hdec' He.
  destruct Hscreen as (Hfile & _ & Hdec & _).
  assert (f' = f) as -> by congruence.
  rewrite (decodes_inj _ _ _ Hdec' Hdec) in He.
  by rewrite (Hkeep e He).
Qed.


(** * Further properties of the script *)

(** ** One execution as a transition *)

(** The main area of an uploaded file: what it returns and which entries
    it leaves, way by way. *)
Lemma main_area_table w f r :
  (∃ e, main_area w (Some f) (session_of r)
        = (inr (Raised e), session_of r, []) ∧
        ∀ image, ¬ decodes f image)
  ∨ ∃ image, decodes f image ∧
      ((∃ c ev,
          w_image_coordinates w (coordinates_key f r) = Some c ∧
          ([click_x c; click_y c] ∉ points r) ∧
          main_area w (Some f) (session_of r)
          = (inr RerunException,
             session_of
               (Entries (points r ++ [[click_x c; click_y c]])
                  (image_uploaded_name r) None false (reset_counter r)),
             ev))
       ∨ (no_new_click w f r ∧
          ((no_press w r ∧
            main_area w (Some f) (session_of r)
            = (inl tt, session_of r, preview_log f image r))
           ∨ (∃ ev, points r ≠ [] ∧ w_button w reset_label = true ∧
                main_area w (Some f) (session_of r)
                = (inr RerunException,
                   session_of
                     (Entries [] (image_uploaded_name r) None false
                        (reset_counter r + 1)),
                   ev))
           ∨ (∃ ev, points r ≠ [] ∧ w_button w reset_label = false ∧
                w_button w run_label = true ∧
                main_area w (Some f) (session_of r)
                = (inr RerunException,
                   session_of
                     (Entries (points r) (image_uploaded_name r) None true
                        (reset_counter r)),
                   ev))))).
Proof.
  destruct (Image_open (file f)) as [e|im] eqn:Hopen.
  { left.
    assert (∀ image, ¬ decodes f image) as Hno
      by (intros image (im' & Him & _); congruence).
    destruct (main_area_undecoded w f r Hno) as [e' He']. eauto. }
  destruct (Image_convert im "RGB") as [e|image] eqn:Hconv.
  { left.
    assert (∀ image, ¬ decodes f image) as Hno
      by (intros image (im' & Him & Hc); congruence).
    destruct (main_area_undecoded w f r Hno) as [e' He']. eauto. }
  assert (decodes f image) as Hdec by (by exists im).
  right. exists image. split; [done|].
  assert (no_new_click w f r →
          (no_press w r ∧
            main_area w (Some f) (session_of r)
            = (inl tt, session_of r, preview_log f image r))
           ∨ (∃ ev, points r ≠ [] ∧ w_button w reset_label = true ∧
                main_area w (Some f) (session_of r)
                = (inr RerunException,
                   session_of
                     (Entries [] (image_uploaded_name r) None false
                        (reset_counter r + 1)),
                   ev))
           ∨ (∃ ev, points r ≠ [] ∧ w_button w reset_label = false ∧
                w_button w run_label = true ∧
                main_area w (Some f) (session_of r)
                = (inr RerunException,
                   session_of
                     (Entries (points r) (image_uploaded_name r) None true
                        (reset_counter r)),
                   ev))) as Hpanel.
  { intros Hclick.
    destruct (decide (points r = [])) as [Hempty|Hpts].
    { left. split; [by left|]. apply main_area_idle; [done..|by left]. }
    destruct (w_button w reset_label) eqn:Hreset.
    { right. left. eexists. split_and!; [done..|]. by apply main_area_reset. }
    destruct (w_button w run_label) eqn:Hrun.
    { right. right. eexists. split_and!; [done..|]. by apply main_area_run. }
    left. split; [by right|]. apply main_area_idle; [done..|by right]. }
  destruct (w_image_coordinates w (coordinates_key f r)) as [c|] eqn:Hc.
  - destruct (decide ([click_x c; click_y c] ∈ points r)) as [Hin|Hnew].
    + right. assert (no_new_click w f r) as Hclick
        by (intros c' Hc'; congruence).
      split; [done|]. by apply Hpanel.
    + left. eexists c, _. split_and!; [done..|]. by apply main_area_click.
  - right. assert (no_new_click w f r) as Hclick
      by (intros c' Hc'; congruence).
    split; [done|]. by apply Hpanel.
Qed.

Lemma start_of_file w f r :
  w_file_uploader w = Some f → start_of w r = upload_recorded f r.
Proof. intros Hfile. unfold start_of. by rewrite Hfile. Qed.

Lemma start_of_name w f r :
  w_file_uploader w = Some f →
  image_uploaded_name (start_of w r) = Some (name f).
Proof.
  intros Hfile. rewrite (start_of_file _ _ _ Hfile).
  by destruct (upload_recorded_cases f r) as [[? ->]|[_ ->]].
Qed.

Lemma on_screen_start_of w f image r :
  w_file_uploader w = Some f → decodes f image →
  no_new_click w f (start_of w r) →
  on_screen w f image (start_of w r).
Proof. intros Hfile Hdec Hclick. split_and!; [done|by apply start_of_name|done..]. Qed.

(** Displaying ends by returning or by the [AttributeError] of line
    216. *)
Lemma show_result_ends uf r :
  ∃ res ev,
    show_result uf (session_of r) = (res, session_of r, ev) ∧ ends res.
Proof.
  destruct r as [p n [out|] b k], uf as [f|]; unfold show_result.
  all: eexists _, _; split; [exec; finish | exact I].
Qed.

Lemma script_step pred w r :
  ∃ res r' ev,
    script w pred (session_of r) = (res, session_of r', ev) ∧
    change w (start_of w r) res r'.
Proof.
  destruct (w_file_uploader w) as [f|] eqn:Hfile.
  - rewrite (script_with_file _ _ _ _ Hfile), bind_eq.
    rewrite (start_of_file _ _ _ Hfile).
    set (r0 := upload_recorded f r).
    destruct (main_area_table w f r0)
      as [(e & Hm & _)
         |(image & Hdec &
           [(c & ev & Hc & Hnew & Hm)
           |(Hclick &
             [(Hpress & Hm)
             |[(ev & Hpts & Hreset & Hm)
              |(ev & Hpts & Hreset & Hrun & Hm)]])])];
      rewrite Hm; cbv beta iota.
    + eexists _, _, _. split; [reflexivity|]. by constructor.
    + eexists _, _, _. split; [reflexivity|]. by eapply change_click.
    + rewrite bind_eq. destruct (is_processing r0) eqn:Hproc.
      * rewrite (segmentation_attempt _ _ _ _ Hdec Hproc).
        destruct (attempt_any pred image r0)
          as (cached & ev & Hatt & _ & _).
        rewrite Hatt. cbv beta iota.
        eexists _, _, _. split; [reflexivity|]. by eapply change_attempt.
      * rewrite (segmentation_idle _ _ _ Hproc). cbv beta iota.
        destruct (show_result_ends (Some f) r0) as (res & ev & Hshow & Hres).
        rewrite Hshow.
        eexists _, _, _. split; [reflexivity|]. by constructor.
    + eexists _, _, _. split; [reflexivity|]. by eapply change_reset.
    + eexists _, _, _. split; [reflexivity|]. by eapply change_run.
  - rewrite (script_no_file_eq _ _ _ Hfile).
    destruct (show_result_ends None r) as (res & ev & Hshow & Hres).
    rewrite Hshow. unfold start_of. rewrite Hfile.
    eexists _, _, _. split; [reflexivity|]. by constructor.
Qed.

(** X1.  Whatever the widgets and the model do, one execution leaves a
    session with the five entries.  Either it returns or raises, and
    then the entries are as lines 83-91 left them; or it is cut short by
    [st.rerun()], and then they differ in one of four ways: by a new
    click appended, by the reset button, by the run button, or by a
    finished segmentation attempt.  It never ends in [st.stop()]. *)
Theorem script_changes pred w r :
  ∃ res r' ev,
    script w pred (session_of r) = (res, session_of r', ev) ∧
    change w (start_of w r) res r'.
Proof. apply script_step. Qed.

Lemma coherent_blank n : coherent (Entries [] (Some n) None false 0).
Proof.
  split_and!; cbn; [by apply Forall_nil|done|done|done|].
  by intros [? ?].
Qed.

Lemma coherent_start_of w r : coherent r → coherent (start_of w r).
Proof.
  unfold start_of. destruct (w_file_uploader w) as [f|]; [|done].
  intros Hr. destruct (upload_recorded_cases f r) as [[_ ->]|[_ ->]];
    [done|apply coherent_blank].
Qed.

(** Each of the five changes keeps the entries coherent. *)
Lemma coherent_change w r res r' :
  coherent (start_of w r) → change w (start_of w r) res r' → coherent r'.
Proof.
  intros (Hshape & Hcount & Hname & Hproc & Hcached) Hchange.
  destruct Hchange as [res _|f c Hfile Hc Hnew|f _ _ _ _|f _ _ Hpts _ _
                      |f cached _ _ Hp Hpress].
  - done.
  - split_and!; cbn.
    + apply Forall_app. split; [done|]. by apply Forall_singleton.
    + done.
    + intros _. rewrite (start_of_name _ _ _ Hfile). by eexists.
    + done.
    + by intros [? ?].
  - split_and!; cbn; [by apply Forall_nil|lia|done|done|]. by intros [? ?].
  - split_and!; cbn; [done..|]. by intros [? ?].
  - split_and!; cbn; [done..| |]; [done|]. intros _. split; [|done].
    by apply Hproc.
Qed.

(** Every session a browser can reach is empty or coherent. *)
Lemma reachable_coherent ss :
  reachable ss → ss = ∅ ∨ ∃ r, ss = session_of r ∧ coherent r.
Proof.
  induction 1 as [|SAM w ss Hreach IH]; [by left|].
  destruct (SAM "sam2.1_b.pt") as [e|pred] eqn:Hload.
  - by rewrite (app_not_loaded _ _ _ _ Hload).
  - rewrite (app_loaded _ _ _ _ Hload). right.
    assert (∃ r, coherent r ∧ script w pred ss = script w pred (session_of r))
      as (r & Hr & ->).
    { destruct IH as [->|(r & -> & Hr)]; [|by exists r].
      exists initial. split; [|apply script_fresh].
      split_and!; cbn; [by apply Forall_nil|done|done|done|].
      by intros [? ?]. }
    destruct (script_step pred w r) as (res & r' & ev & -> & Hchange).
    exists r'. split; [reflexivity|].
    eapply coherent_change; [|done]. by apply coherent_start_of.
Qed.

(** X2.  In every session a browser can reach, every point has two
    coordinates, the reset counter is not negative, points are selected
    only on a recorded upload, a segmentation is pending only with
    points selected, and a result is cached only with points selected
    and no segmentation pending. *)
Theorem reachable_session_coherent ss :
  reachable ss → ss = ∅ ∨ ∃ r, ss = session_of r ∧ coherent r.
Proof. apply reachable_coherent. Qed.

(** X3.  From a reachable session the model is only ever called with
    the list of points that the session holds, which then is not empty
    and has two coordinates per point, and with one label 1 per point. *)
Theorem model_called_with_selected_points pred w ss source pts labels :
  reachable ss →
  (source, pts, labels) ∈ predictor_calls (log (script w pred ss)) →
  ss !! "points" = Some (VPoints pts) ∧
  pts ≠ [] ∧
  Forall (λ p, length p = 2%nat) pts ∧
  labels = replicate (length pts) 1.
Proof.
  intros Hreach Hin.
  assert (predictor_calls (log (script w pred ss)) ≠ []) as Hcalls
    by (intros Hnil; rewrite Hnil in Hin; by apply elem_of_nil in Hin).
  apply reachable_coherent in Hreach
    as [->|(r & -> & Hshape & _ & _ & Hpending & _)].
  { rewrite script_fresh in Hcalls.
    by destruct (call_is_pending _ _ _ Hcalls) as (? & ? & _ & _ & ?). }
  destruct (call_is_pending _ _ _ Hcalls)
    as (f & image & Hscreen & Hpress & Hproc).
  destruct (attempt_any pred image r) as (cached & ev & Hatt & Hone & _).
  rewrite (script_attempt _ _ _ _ _ _ _ _ Hscreen Hpress Hproc Hatt) in Hin.
  tidy. rewrite !predictor_calls_app, predictor_calls_header,
    predictor_calls_preview, Hone in Hin.
  apply list_elem_of_singleton in Hin. simplify_eq.
  destruct r as [p n s b k]. split_and!; [reflexivity|by apply Hpending|done..].
Qed.

(** X4.  Whenever an execution changes the list of points, it also
    clears the cached result and the processing flag: no result
    outlives the selection it was computed for. *)
Theorem points_change_clears_result pred w r r' :
  session_after (script w pred (session_of r)) = session_of r' →
  points r' ≠ points r →
  segmented_image_rgba r' = None ∧ is_processing r' = false.
Proof.
  intros Hrun Hpts.
  destruct (script_step pred w r) as (res2 & r2 & ev2 & Hrun2 & Hchange).
  rewrite Hrun2 in Hrun. unfold session_after in Hrun. cbn [fst snd] in Hrun.
  apply session_of_inj in Hrun as ->. clear Hrun2.
  assert (start_of w r = r ∨
          ∃ n, start_of w r = Entries [] (Some n) None false 0) as Hstart.
  { unfold start_of. destruct (w_file_uploader w) as [f|]; [|by left].
    destruct (upload_recorded_cases f r) as [[_ ->]|[_ ->]]; eauto. }
  destruct Hstart as [Hsame|[n Hblank]].
  - rewrite Hsame in Hchange. destruct Hchange; cbn in *; done.
  - rewrite Hblank in Hchange. destruct Hchange; cbn in *; done.
Qed.

(** ** The buttons and the [try] statement *)

Lemma script_reset pred w f image r :
  on_screen w f image r → points r ≠ [] →
  w_button w reset_label = true →
  script w pred (session_of r)
  = (inr RerunException,
     session_of (Entries [] (image_uploaded_name r) None false
                   (reset_counter r + 1)),
     header_log ++
     [ st_subheader
         "画像をプレビューして、切り出したいオブジェクトの中心をクリックしてください";
       streamlit_image_coordinates image (coordinates_key f r);
       st_info ("選択された点: " +:+ repr_points (points r));
       st_columns 2; st_button reset_label ]).
Proof.
  intros Hscreen Hpts Hreset. on_path Hscreen.
  rewrite bind_eq, (main_area_reset _ _ _ _ Hdec Hclick Hpts Hreset).
  reflexivity.
Qed.

Lemma coordinates_key_inj f r1 r2 :
  coordinates_key f r1 = coordinates_key f r2 →
  reset_counter r1 = reset_counter r2.
Proof.
  unfold coordinates_key. intros Heq.
  do 3 apply (inj (String.app _)) in Heq. by apply (inj pretty) in Heq.
Qed.

(** X5.  A press of the reset button (lines 130-141) empties the list
    of points, clears the cached result and the flag, and reruns with
    the counter raised by one, so that the image-coordinates component
    gets another key than it had and the click it reported under the old
    key is not read again. *)
Theorem reset_button_clears_and_rekeys pred w f image r :
  on_screen w f image r → points r ≠ [] →
  w_button w reset_label = true →
  let run := script w pred (session_of r) in
  let r' := Entries [] (image_uploaded_name r) None false
              (reset_counter r + 1) in
  outcome run = inr RerunException ∧
  session_after run = session_of r' ∧
  predictor_calls (log run) = [] ∧
  coordinates_key f r' ≠ coordinates_key f r.
Proof.
  intros Hscreen Hpts Hreset run r'. subst run.
  rewrite (script_reset _ _ _ _ _ Hscreen Hpts Hreset). tidy.
  split_and!; [reflexivity..|].
  intros Hkey%coordinates_key_inj. cbn in Hkey. lia.
Qed.

Lemma predict_raised pred image r e :
  outcome (predict pred image (np_array image) (session_of r))
  = inr (Raised e) →
  predict pred image (np_array image) (session_of r)
  = (inr (Raised e), session_of r,
     [predictor_call (np_array image) (np_array_points (points r))
        (np_ones (length (points r)))]).
Proof.
  rewrite predict_eq.
  repeat case_split; cbv beta iota zeta; tidy; intros He; by simplify_eq.
Qed.

Lemma attempt_after_raise pred image r e ev :
  predict pred image (np_array image) (session_of r)
  = (inr (Raised e), session_of r, ev) →
  attempt pred image (np_array image) (session_of r)
  = (inr RerunException,
     session_of (Entries (points r) (image_uploaded_name r)
                   (segmented_image_rgba r) false (reset_counter r)),
     ev ++ error_log e).
Proof.
  intros Hbody. unfold attempt, try_except_finally. rewrite Hbody.
  destruct r as [p n s b k]. unfold on_error, after_predict.
  exec. rewrite ?app_nil_r. reflexivity.
Qed.

Lemma attempt_after_return pred image r r1 ev :
  predict pred image (np_array image) (session_of r)
  = (inl tt, session_of r1, ev) →
  attempt pred image (np_array image) (session_of r)
  = (inr RerunException,
     session_of (Entries (points r1) (image_uploaded_name r1)
                   (segmented_image_rgba r1) false (reset_counter r1)),
     ev).
Proof.
  intros Hbody. unfold attempt, try_except_finally. rewrite Hbody.
  destruct r1 as [p n s b k]. unfold on_error, after_predict.
  exec. rewrite ?app_nil_r. reflexivity.
Qed.

(** X6.  Whatever raises in the body of the [try], the model or Pillow
    on the mask it returned, is reported by the same handler with its
    [str(e)], after the one call of the model; the cached result is left
    as it was, the flag is cleared and the execution reruns. *)
Theorem exception_in_try_is_reported pred w f image r e :
  on_screen w f image r → no_press w r → is_processing r = true →
  outcome (predict pred image (np_array image) (session_of r))
  = inr (Raised e) →
  let run := script w pred (session_of r) in
  log run
  = header_log ++ preview_log f image r ++ spinner_log ++
    predictor_call (np_array image) (np_array_points (points r))
      (np_ones (length (points r))) :: error_log e ∧
  outcome run = inr RerunException ∧
  session_after run
  = session_of (Entries (points r) (image_uploaded_name r)
                  (segmented_image_rgba r) false (reset_counter r)).
Proof.
  intros Hscreen Hpress Hproc He run. subst run.
  rewrite (script_attempt _ _ _ _ _ _ _ _ Hscreen Hpress Hproc
             (attempt_after_raise _ _ _ _ _ (predict_raised _ _ _ _ He))).
  by split_and!.
Qed.

(** X7.  When the model returns without a usable mask (no result, a
    result without masks, or an empty stack of masks), lines 183-187
    warn, the cached result is cleared together with the flag, and the
    execution reruns without an error being reported. *)
Theorem no_mask_warns_and_clears pred w f image r results :
  on_screen w f image r → no_press w r → is_processing r = true →
  pred (np_array image) (np_array_points (points r))
       (np_ones (length (points r))) = inr results →
  results = [] ∨
  (∃ r0 rest, results = r0 :: rest ∧
     (masks r0 = None ∨ masks r0 = Some {| data := Some [] |})) →
  let run := script w pred (session_of r) in
  log run
  = header_log ++ preview_log f image r ++ spinner_log ++
    [ predictor_call (np_array image) (np_array_points (points r))
        (np_ones (length (points r)));
      st_warning
        "指定された点ではセグメンテーションマスクが見つかりませんでした。別の点を試してください。" ] ∧
  outcome run = inr RerunException ∧
  session_after run
  = session_of (Entries (points r) (image_uploaded_name r) None false
                  (reset_counter r)).
Proof.
  intros Hscreen Hpress Hproc Hpred Hnone run. subst run.
  assert (predict pred image (np_array image) (session_of r)
          = (inl tt,
             session_of (Entries (points r) (image_uploaded_name r) None
                           (is_processing r) (reset_counter r)),
             [ predictor_call (np_array image) (np_array_points (points r))
                 (np_ones (length (points r)));
               st_warning
                 "指定された点ではセグメンテーションマスクが見つかりませんでした。別の点を試してください。" ]))
    as Hbody.
  { rewrite predict_eq, Hpred. cbv zeta.
    destruct Hnone as [->|(r0 & rest & -> & [Hm|Hm])];
      [reflexivity|by rewrite Hm..]. }
  rewrite (script_attempt _ _ _ _ _ _ _ _ Hscreen Hpress Hproc
             (attempt_after_return _ _ _ _ _ Hbody)).
  by split_and!.
Qed.

(** ** Reruns in sequence *)

Lemma start_of_recorded w f r :
  w_file_uploader w = Some f → image_uploaded_name r = Some (name f) →
  start_of w r = r.
Proof.
  intros Hfile Hname. rewrite (start_of_file _ _ _ Hfile).
  by apply upload_recorded_same.
Qed.

(** Only an execution with an uploaded file is cut short by a rerun,
    and it leaves the name of that file recorded. *)
Lemma change_rerun_file w r r' :
  change w (start_of w r) (inr RerunException) r' →
  ∃ f, w_file_uploader w = Some f ∧ image_uploaded_name r' = Some (name f).
Proof.
  intros Hch.
  inversion Hch as [res Hends|f c Hfile _ _|f Hfile _ _ _|f Hfile _ _ _ _
                   |f cached Hfile _ _ _]; subst.
  - destruct Hends.
  - exists f. split; [done|]. cbn. by apply start_of_name.
  - exists f. split; [done|]. cbn. by apply start_of_name.
  - exists f. split; [done|]. cbn. by apply start_of_name.
  - exists f. split; [done|]. cbn. by apply start_of_name.
Qed.

(** With the buttons released, a rerun comes from a new click or from a
    segmentation attempt; either leaves nothing pending and no click
    that the list does not hold. *)
Lemma change_released_rerun w f r r' :
  w_file_uploader w = Some f →
  change (released w) r (inr RerunException) r' →
  image_uploaded_name r' = image_uploaded_name r ∧
  is_processing r' = false ∧ no_new_click w f r'.
Proof.
  intros Hfile Hch.
  inversion Hch as [res Hends|f' c Hfile' Hc Hnew|f' _ _ _ Hreset
                   |f' _ _ _ _ Hrun|f' cached Hfile' Hclick _ _]; subst.
  - destruct Hends.
  - cbn in Hfile'. assert (f' = f) as -> by congruence.
    split_and!; [done..|]. intros c' Hc'.
    unfold coordinates_key in Hc, Hc'.
    cbn [reset_counter w_image_coordinates released] in Hc, Hc'.
    assert (c' = c) as -> by congruence.
    apply elem_of_app. right. by apply list_elem_of_singleton.
  - discriminate Hreset.
  - discriminate Hrun.
  - cbn in Hfile'. assert (f' = f) as -> by congruence.
    split_and!; [done..|]. exact Hclick.
Qed.

(** With the buttons released, nothing pending and no new click, the
    execution runs to its end and assigns nothing. *)
Lemma change_released_settled w f r res r' :
  w_file_uploader w = Some f → is_processing r = false →
  no_new_click w f r →
  change (released w) r res r' → ends res ∧ r' = r.
Proof.
  intros Hfile Hproc Hclick Hch.
  destruct Hch as [res Hends|f' c Hfile' Hc Hnew|f' _ _ _ Hreset
                  |f' _ _ _ _ Hrun|f' cached _ _ Hp _].
  - done.
  - cbn in Hfile'. assert (f' = f) as -> by congruence.
    destruct Hnew. by apply Hclick.
  - discriminate Hreset.
  - discriminate Hrun.
  - congruence.
Qed.

(** X8.  Reruns settle.  When an execution is cut short by
    [st.rerun()], and the execution Streamlit starts at once (same
    widget values, buttons released) is cut short too, then the one
    after that runs to its end and leaves the session as it found it:
    the script never reruns more than twice in a row. *)
Theorem reruns_settle pred w r :
  let run1 := script w pred (session_of r) in
  let run2 := script (released w) pred (session_after run1) in
  let run3 := script (released w) pred (session_after run2) in
  outcome run1 = inr RerunException →
  outcome run2 = inr RerunException →
  ends (outcome run3) ∧ session_after run3 = session_after run2.
Proof.
  cbv zeta.
  destruct (script_step pred w r) as (res1 & r1 & ev1 & -> & Hch1).
  unfold outcome, session_after. cbn [fst snd]. intros ->.
  destruct (change_rerun_file _ _ _ Hch1) as (f & Hfile & Hname1).
  destruct (script_step pred (released w) r1)
    as (res2 & r2 & ev2 & -> & Hch2).
  cbn [fst snd]. intros ->.
  rewrite (start_of_recorded (released w) f r1 Hfile Hname1) in Hch2.
  destruct (change_released_rerun _ _ _ _ Hfile Hch2)
    as (Hname2 & Hproc2 & Hclick2).
  destruct (script_step pred (released w) r2)
    as (res3 & r3 & ev3 & -> & Hch3).
  cbn [fst snd].
  rewrite (start_of_recorded (released w) f r2 Hfile) in Hch3
    by congruence.
  by destruct (change_released_settled _ _ _ _ _ Hfile Hproc2 Hclick2 Hch3)
    as [Hends ->].
Qed.

(** ** Executions that are not cut short *)

(** X9.  Without an uploaded file the execution shows the header and
    the request to upload and leaves the session alone; but when a
    result is still cached (the file was removed after a segmentation),
    line 216 reads [uploaded_file.name] of [None]: the result is shown
    and the execution then raises an [AttributeError] instead of
    offering the download. *)
Theorem removed_upload_breaks_result_display pred w r :
  w_file_uploader w = None →
  script w pred (session_of r)
  = match segmented_image_rgba r with
    | None =>
        (inl tt, session_of r,
         header_log ++ [st_info "画像をアップロードして開始してください。"])
    | Some out =>
        (inr (Raised (Exception "AttributeError"
                        "'NoneType' object has no attribute 'name'")),
         session_of r,
         header_log ++
         [ st_info "画像をアップロードして開始してください。";
           st_subheader "セグメンテーション結果（透過PNG）";
           st_image out "セグメントされた画像" true ])
    end.
Proof.
  intros Hfile. rewrite (script_no_file_eq _ _ _ Hfile).
  destruct r as [p n [out|] b k]; cbn [segmented_image_rgba].
  - assert (show_result None (session_of (Entries p n (Some out) b k))
            = (inr (Raised (Exception "AttributeError"
                              "'NoneType' object has no attribute 'name'")),
               session_of (Entries p n (Some out) b k),
               [ st_subheader "セグメンテーション結果（透過PNG）";
                 st_image out "セグメントされた画像" true ])) as ->
      by (unfold show_result; exec; finish).
    reflexivity.
  - by rewrite show_result_none.
Qed.

(** X10.  An upload that Pillow cannot open, or cannot convert to RGB,
    is not handled: the exception of line 95 ends the execution right
    after the uploader, with the new upload recorded and nothing of the
    main area on the page. *)
Theorem undecodable_upload_raises pred w f r e :
  w_file_uploader w = Some f →
  Image_open (file f) = inl e ∨
  (∃ im, Image_open (file f) = inr im ∧ Image_convert im "RGB" = inl e) →
  script w pred (session_of r)
  = (inr (Raised e), session_of (upload_recorded f r), header_log).
Proof.
  intros Hfile Hbad. rewrite (script_with_file _ _ _ _ Hfile), bind_eq.
  assert (main_area w (Some f) (session_of (upload_recorded f r))
          = (inr (Raised e), session_of (upload_recorded f r), [])) as ->.
  { unfold main_area, open_rgb.
    destruct Hbad as [Hopen|(im & Hopen & Hconv)]; rewrite Hopen.
    - exec; finish.
    - exec; finish. }
  by rewrite app_nil_r.
Qed.

(** X11.  A refresh without interaction is idle: with the picture of
    the recorded upload on the page, no new click, no press and nothing
    pending, the execution returns, leaves the session as it is, calls
    no model, and shows the preview followed by the cached result, if
    there is one.  Only the name of the upload is compared: a different
    file under the recorded name keeps points and result. *)
Theorem idle_refresh_changes_nothing pred w f image r :
  on_screen w f image r → no_press w r → is_processing r = false →
  script w pred (session_of r)
  = (inl tt, session_of r,
     header_log ++ preview_log f image r ++
     match segmented_image_rgba r with
     | Some out => result_log f out
     | None => []
     end).
Proof.
  intros Hscreen Hpress Hproc.
  rewrite (script_idle _ _ _ _ _ Hscreen Hpress), bind_eq,
    (segmentation_idle _ _ _ Hproc).
  cbv beta iota.
  destruct (segmented_image_rgba r) as [out|] eqn:Hout.
  - by rewrite (show_result_cached _ _ _ Hout).
  - by rewrite (show_result_none _ _ Hout).
Qed.

(** ** The name of the download *)

Lemma split_dot_0_no_dot a :
  "."%char ∉ list_ascii_of_string a → split_dot_0 a = a.
Proof.
  induction a as [|c a IH]; [done|].
  cbn [list_ascii_of_string split_dot_0].
  intros [Hc Ha]%not_elem_of_cons.
  destruct (Ascii.eqb_spec c ".") as [->|_]; [done|].
  by rewrite IH.
Qed.

Lemma split_dot_0_app a b :
  "."%char ∉ list_ascii_of_string a →
  split_dot_0 (a +:+ "." +:+ b) = a.
Proof.
  induction a as [|c a IH]; [done|].
  cbn [list_ascii_of_string]. intros [Hc Ha]%not_elem_of_cons.
  change (split_dot_0 (String c a +:+ "." +:+ b))
    with (if Ascii.eqb c "." then EmptyString
          else String c (split_dot_0 (a +:+ "." +:+ b))).
  destruct (Ascii.eqb_spec c ".") as [->|_]; [done|].
  by rewrite IH.
Qed.

(** X12.  The download is named after the upload up to its first dot:
    for an upload named [stem] or [stem.rest] with no dot in [stem],
    the file name offered is [segmented_stem.png], whatever follows the
    first dot. *)
Theorem download_named_after_stem f out r stem rest :
  segmented_image_rgba r = Some out →
  "."%char ∉ list_ascii_of_string stem →
  name f = stem ∨ name f = stem +:+ "." +:+ rest →
  downloads (log (show_result (Some f) (session_of r)))
  = [(Image_save out "PNG", "segmented_" +:+ stem +:+ ".png", "image/png")].
Proof.
  intros Hout Hstem Hname. rewrite (show_result_cached _ _ _ Hout).
  unfold log, result_log. cbn [snd downloads omap list_omap].
  destruct Hname as [->| ->];
    [by rewrite split_dot_0_no_dot|by rewrite split_dot_0_app].
Qed.

(** ** Loading the model *)

Lemma app_loaded_eq SAM w pred ss :
  SAM "sam2.1_b.pt" = inr pred →
  app SAM w ss
  = match script w pred ss with
    | (res, ss', ev) =>
        (res, ss',
         st_success "Ultralytics SAM 2モデルが正常にロードされました。" :: ev)
    end.
Proof.
  intros Hload. unfold app, load_sam_model. rewrite Hload.
  rewrite !bind_eq, emit_eq. cbv beta iota.
  rewrite ret_eq. cbv beta iota.
  destruct (script w pred ss) as [[res ss'] ev]. reflexivity.
Qed.

(** X13.  The application ends in [st.stop()] exactly when the model
    cannot be loaded; it then shows the two error messages of lines
    30-31 with [str(e)], renders nothing else, not even the uploader,
    and leaves the session untouched. *)
Theorem app_stops_exactly_without_model SAM w ss :
  reachable ss →
  (∀ e, SAM "sam2.1_b.pt" = inl e →
        app SAM w ss
        = (inr StopException, ss,
           [ st_error
               ("Ultralytics SAM 2モデルのロード中にエラーが発生しました: "
                +:+ exn_str e);
             st_error
               "`pip install ultralytics` が正常に実行されているか確認してください。" ]))
  ∧ (outcome (app SAM w ss) = inr StopException →
     ∃ e, SAM "sam2.1_b.pt" = inl e).
Proof.
  intros Hreach. split.
  - intros e Hload. unfold app, load_sam_model. rewrite Hload.
    rewrite !bind_eq, !emit_eq. reflexivity.
  - destruct (SAM "sam2.1_b.pt") as [e|pred] eqn:Hload; [by eexists|].
    rewrite (app_loaded_eq _ _ _ _ Hload).
    assert (∃ r, script w pred ss = script w pred (session_of r))
      as [r ->].
    { destruct (reachable_coherent _ Hreach) as [->|(r & -> & _)];
        [exists initial; apply script_fresh|by exists r]. }
    destruct (script_step pred w r) as (res & r' & ev & -> & Hch).
    unfold outcome. cbn [fst]. intros ->.
    inversion Hch as [res Hends| | | |]. destruct Hends.
Qed.

(** ** Initialising the session *)

(** [if key not in st.session_state: st.session_state.key = v] *)
Lemma setdefault_union key (v : value) (ss : gmap string value) :
  (if bool_decide (is_Some (ss !! key)) then ss else <[key := v]> ss)
  = ss ∪ {[key := v]}.
Proof.
  case_bool_decide as Hk.
  - destruct Hk as [v' Hk]. apply map_eq. intros i.
    rewrite lookup_union. destruct (decide (i = key)) as [->|Hne].
    + by rewrite Hk, lookup_singleton_eq.
    + rewrite lookup_singleton_ne by done. by destruct (ss !! i).
  - apply insert_union_singleton_r. by apply eq_None_not_Some.
Qed.

Lemma init_key {A} key v (rest : M A) ss :
  (b ← contains key; when (negb b) (setattr key v);; rest) ss
  = rest (ss ∪ {[key := v]}).
Proof.
  rewrite <- setdefault_union.
  rewrite bind_eq. unfold contains. cbv beta iota.
  rewrite bind_eq. unfold when, setattr.
  destruct (bool_decide (is_Some (ss !! key))); cbn [negb];
    rewrite ?ret_eq; cbv beta iota;
    by destruct (rest _) as [[res ss'] ev].
Qed.

Lemma init_last_key key v ss :
  (b ← contains key; when (negb b) (setattr key v)) ss
  = (inl tt, ss ∪ {[key := v]}, []).
Proof.
  rewrite <- setdefault_union.
  rewrite bind_eq. unfold contains, when, setattr. cbv beta iota.
  by destruct (bool_decide (is_Some (ss !! key))).
Qed.

(** X14.  Lines 62-75 on any session dictionary: an entry the session
    holds is kept with its value, whatever that is, and each of the five
    keys it lacks gets its initial value; nothing is put on the page. *)
Theorem init_keeps_existing_entries ss :
  init_session_state ss = (inl tt, ss ∪ session_of initial, []).
Proof.
  unfold init_session_state. rewrite !init_key, init_last_key.
  do 2 f_equal. rewrite <- !(assoc_L (∪)). f_equal.
Qed.

Lemma init_session_state_returns ss :
  ∃ ss', init_session_state ss = (inl tt, ss', []).
Proof.
  unfold init_session_state. rewrite !init_key, init_last_key. by eexists.
Qed.

(** Whatever the session dictionary holds, the page begins with the
    header and the uploader. *)
Lemma script_header pred w ss :
  ∃ ev, log (script w pred ss) = header_log ++ ev.
Proof.
  set (rest := λ uf, reset_on_new_upload uf;; main_area w uf;;
                     segmentation pred uf;; show_result uf).
  change (script w pred ss)
    with ((page_header;; init_session_state;;
           uf ← file_uploader w; rest uf) ss).
  clearbody rest.
  unfold page_header, file_uploader, mbind, M_bind, emit, mret, M_ret.
  cbv beta iota.
  destruct (init_session_state_returns ss) as [ss1 ->]. cbv beta iota.
  destruct (rest _ _) as [[res ss'] ev]. by exists ev.
Qed.

(** X15.  The message of the model loader comes first on the page:
    when the model loads, [st.success] is called before
    [st.set_page_config], and the header and the uploader follow in
    every execution, whatever the session holds and however the
    execution ends. *)
Theorem page_starts_with_load_message SAM w pred ss :
  SAM "sam2.1_b.pt" = inr pred →
  ∃ ev,
    log (app SAM w ss)
    = st_success "Ultralytics SAM 2モデルが正常にロードされました。"
      :: st_set_page_config "wide" "画像セグメンテーション（SAM 2使用）"
      :: st_title "画像セグメンテーションアプリケーション"
      :: st_markdown usage
      :: st_file_uploader "画像をアップロードしてください"
           ["png"; "jpg"; "jpeg"]
      :: ev.
Proof.
  intros Hload. rewrite (app_loaded_eq _ _ _ _ Hload).
  destruct (script_header pred w ss) as [ev Hev].
  destruct (script w pred ss) as [[res ss'] ev']. unfold log in *.
  cbn [snd] in *. subst ev'. by exists ev.
Qed.

(** ** The guard of line 176 *)

(** X16.  The test of line 176 protects line 177: when it holds,
    [results[0].masks.data[0]] is there, so that the indexing raises
    neither an [IndexError] nor an [AttributeError]. *)
Theorem mask_guard_protects_indexing results ss :
  outcome (has_mask results ss) = inl true →
  ∃ r0 rest m t ts,
    results = r0 :: rest ∧ masks r0 = Some m ∧ data m = Some (t :: ts) ∧
    first_mask results ss = (inl t, ss, []).
Proof.
  destruct results as [|[[[[[|t ts]|]]|]] rest]; unfold has_mask, first_mask;
    cbn [masks data]; rewrite ?ret_eq; unfold outcome; cbn [fst].
  - discriminate.
  - case_bool_decide as Hd; [by destruct Hd|discriminate].
  - intros _. by eexists _, _, _, _, _.
  - discriminate.
  - discriminate.
Qed.

(** ** Where a result is displayed *)

Lemma main_area_displays w uf r :
  displayed_images (log (main_area w uf (session_of r))) = [].
Proof.
  destruct uf as [f|]; [|reflexivity].
  destruct (main_area_cases w f r)
    as [(e & ->)
       |(image & Hdec &
         [(c & ss & _ & ->)
         |(_ & [(_ & ->)|[(ss & _ & _ & ->)|(ss & _ & _ & _ & ->)]])])];
    unfold log; cbn [snd];
    first [reflexivity | apply displayed_images_preview].
Qed.

Lemma attempt_displays pred image r :
  displayed_images
    (log (attempt pred image (np_array image) (session_of r))) = [].
Proof.
  unfold attempt, try_except_finally, on_error, after_predict.
  rewrite predict_eq. destruct r as [p n s b k]. tidy.
  repeat case_split; cbv beta iota zeta.
  all: run_log; reflexivity.
Qed.

Lemma displayed_images_header : displayed_images header_log = [].
Proof. reflexivity. Qed.

(** X17.  A picture is put on the page with [st.image] only by an
    execution that runs through to line 199 and finds it cached: the
    picture shown is the one the session held when the execution
    started (after lines 83-91), the session is left as it was, and the
    execution is not cut short by a rerun.  In particular the execution
    that computes a result never shows it itself. *)
Theorem result_displayed_only_from_cache pred w r img :
  let run := script w pred (session_of r) in
  img ∈ displayed_images (log run) →
  segmented_image_rgba (start_of w r) = Some img ∧
  displayed_images (log run) = [img] ∧
  session_after run = session_of (start_of w r) ∧
  ends (outcome run).
Proof.
  cbv zeta. destruct (w_file_uploader w) as [f|] eqn:Hfile.
  - rewrite (script_with_file _ _ _ _ Hfile), bind_eq.
    rewrite (start_of_file _ _ _ Hfile).
    set (r0 := upload_recorded f r).
    pose proof (main_area_displays w (Some f) r0) as Hmain.
    destruct (main_area_table w f r0)
      as [(e & Hm & _)
         |(image & Hdec &
           [(c & ev & Hc & Hnew & Hm)
           |(Hclick &
             [(Hpress & Hm)
             |[(ev & Hpts & Hreset & Hm)
              |(ev & Hpts & Hreset & Hrun & Hm)]])])];
      rewrite Hm in Hmain |- *; cbv beta iota;
      unfold log, session_after, outcome in Hmain |- *;
      cbn [fst snd] in Hmain |- *.
    + rewrite displayed_images_app, displayed_images_header.
      by intros ?%elem_of_nil.
    + rewrite displayed_images_app, displayed_images_header, Hmain.
      by intros ?%elem_of_nil.
    + rewrite bind_eq. destruct (is_processing r0) eqn:Hproc.
      * rewrite (segmentation_attempt _ _ _ _ Hdec Hproc).
        pose proof (attempt_displays pred image r0) as Hatt.
        destruct (attempt_any pred image r0)
          as (cached & ev & Heq & _ & _).
        rewrite Heq in Hatt |- *. cbv beta iota. cbn [fst snd].
        unfold log in Hatt. cbn [snd] in Hatt.
        rewrite !displayed_images_app, displayed_images_header, Hmain, Hatt.
        by intros ?%elem_of_nil.
      * rewrite (segmentation_idle _ _ _ Hproc). cbv beta iota.
        destruct (segmented_image_rgba r0) as [out|] eqn:Hout.
        -- rewrite (show_result_cached _ _ _ Hout). cbn [fst snd].
           rewrite !displayed_images_app, displayed_images_header, Hmain.
           intros ->%list_elem_of_singleton. done.
        -- rewrite (show_result_none _ _ Hout). cbn [fst snd].
           rewrite !displayed_images_app, displayed_images_header, Hmain.
           by intros ?%elem_of_nil.
    + rewrite displayed_images_app, displayed_images_header, Hmain.
      by intros ?%elem_of_nil.
    + rewrite displayed_images_app, displayed_images_header, Hmain.
      by intros ?%elem_of_nil.
  - rewrite (script_no_file_eq _ _ _ Hfile).
    unfold start_of. rewrite Hfile.
    destruct r as [p n [out|] b k]; cbn [segmented_image_rgba].
    + assert (show_result None (session_of (Entries p n (Some out) b k))
              = (inr (Raised (Exception "AttributeError"
                                "'NoneType' object has no attribute 'name'")),
                 session_of (Entries p n (Some out) b k),
                 [ st_subheader "セグメンテーション結果（透過PNG）";
                   st_image out "セグメントされた画像" true ])) as ->
        by (unfold show_result; exec; finish).
      unfold log, session_after, outcome. cbn [fst snd].
      intros Hin. assert (img = out) as ->.
      { apply list_elem_of_singleton. exact Hin. }
      done.
    + rewrite show_result_none by done.
      unfold log. cbn [snd]. by intros ?%elem_of_nil.
Qed.

End Properties.

(** * The claims on the concrete instance *)

#[local] Existing Instance Toy.external.

Lemma toy_decodes : decodes Toy.cat_png Toy.cat.
Proof. exists Toy.cat. split; reflexivity. Qed.

Lemma toy_on_screen_idle r :
  image_uploaded_name r = Some "cat.png" →
  on_screen (Toy.idle (Some Toy.cat_png)) Toy.cat_png Toy.cat r.
Proof.
  intros Hname. split_and!; [reflexivity | exact Hname | apply toy_decodes |].
  intros c Hc. discriminate Hc.
Qed.

(** An upload, a click at (1, 0) and a press of the run button lead to
    the two sessions of the instance. *)
Lemma toy_reachable_one_point : reachable (session_of Toy.one_point).
Proof.
  assert (session_after
            (app (Toy.loaded Toy.left_pixel)
               (Toy.clicked (Some Toy.cat_png) 1 0)
               (session_after
                  (app (Toy.loaded Toy.left_pixel)
                     (Toy.idle (Some Toy.cat_png)) ∅)))
          = session_of Toy.one_point) as <- by reflexivity.
  apply reachable_run, reachable_run, reachable_fresh.
Qed.

Lemma toy_reachable_pending : reachable (session_of Toy.pending).
Proof.
  assert (session_after
            (app (Toy.loaded Toy.left_pixel)
               (Toy.pressing (Some Toy.cat_png) run_label)
               (session_of Toy.one_point))
          = session_of Toy.pending) as <- by reflexivity.
  apply reachable_run, toy_reachable_one_point.
Qed.

(** C1 on the instance: pressing the run button with (1, 0) selected on
    [cat.png]. *)
Lemma run_button_invokes_model_witness :
  let w := Toy.pressing (Some Toy.cat_png) run_label in
  let press := script w Toy.left_pixel (session_of Toy.one_point) in
  let rerun := script (released w) Toy.left_pixel (session_after press) in
  outcome press = inr RerunException ∧
  predictor_calls (log press) = [] ∧
  ∃ f image,
    w_file_uploader w = Some f ∧ decodes f image ∧
    predictor_calls (log rerun) = [(np_array image, [[1; 0]], [1])].
Proof.
  apply (run_button_invokes_model Toy.left_pixel
           (Toy.pressing (Some Toy.cat_png) run_label) Toy.one_point).
  - reflexivity.
  - apply (bool_decide_unpack _). vm_compute. exact I.
Defined.

(** C2 as stated fails: a click at (1, 0) while the list already holds
    [[1, 0]] does not append. *)
Lemma click_on_listed_point_not_appended :
  let before := Toy.one_point in
  let run := script (Toy.clicked (Some Toy.cat_png) 1 0) Toy.left_pixel
               (session_of before) in
  session_after run !! "points" = Some (VPoints [[1; 0]]) ∧
  session_after run !! "points"
  ≠ Some (VPoints (points before ++ [[1; 0]])).
Proof.
  assert (session_after
            (script (Toy.clicked (Some Toy.cat_png) 1 0) Toy.left_pixel
               (session_of Toy.one_point)) !! "points"
          = Some (VPoints [[1; 0]])) as Hrun by (vm_compute; reflexivity).
  cbv zeta. rewrite Hrun. split; [reflexivity|]. discriminate.
Qed.

(** C2 as amended, on the instance: a click at (0, 0) is appended after
    (1, 0). *)
Lemma click_appends_new_point_witness :
  let run := script (Toy.clicked (Some Toy.cat_png) 0 0) Toy.left_pixel
               (session_of Toy.one_point) in
  outcome run = inr RerunException ∧
  session_after run
  = session_of (Entries [[1; 0]; [0; 0]] (Some "cat.png") None false 0).
Proof.
  apply (click_appends_new_point Toy.left_pixel
           (Toy.clicked (Some Toy.cat_png) 0 0) Toy.cat_png Toy.cat
           Toy.one_point (Click 0 0)).
  - reflexivity.
  - apply toy_decodes.
  - reflexivity.
  - apply (bool_decide_unpack _). vm_compute. exact I.
Defined.



(** C4 on the instance: the model runs out of memory; the message is
    passed to [st.error], and the page of the rerun shows no error. *)
Lemma segmentation_error_lost_in_rerun_witness :
  let w := Toy.idle (Some Toy.cat_png) in
  let run := script w Toy.out_of_memory (session_of Toy.pending) in
  let rerun := script (released w) Toy.out_of_memory (session_after run) in
  errors (log run)
  = [ "セグメンテーション中にエラーが発生しました: " +:+ "CUDA out of memory";
      "モデルの入力点や画像の形式を確認してください。" ] ∧
  predictor_calls (log run) = [(np_array Toy.cat, [[1; 0]], [1])] ∧
  outcome run = inr RerunException ∧
  outcome rerun = inl tt ∧
  errors (log rerun) = [] ∧
  predictor_calls (log rerun) = [] ∧
  session_after rerun = session_after run.
Proof.
  apply (segmentation_error_lost_in_rerun Toy.out_of_memory
           (Toy.idle (Some Toy.cat_png)) Toy.cat_png Toy.cat Toy.pending
           (Exception "RuntimeError" "CUDA out of memory")).
  - apply toy_on_screen_idle. reflexivity.
  - right. split; reflexivity.
  - reflexivity.
  - reflexivity.
Defined.

(** C5 on the instance: the left pixel is kept, the right one is
    transparent. *)
Lemma result_is_picture_pasted_through_mask_witness :
  let w := Toy.idle (Some Toy.cat_png) in
  let run := script w Toy.left_pixel (session_of Toy.pending) in
  let show := script (released w) Toy.left_pixel (session_after run) in
  session_after run
  = session_of (Entries [[1; 0]] (Some "cat.png") (Some Toy.cut_out)
                  false 0) ∧
  displayed_images (log run) = [] ∧
  displayed_images (log show) = [Toy.cut_out] ∧
  session_after show = session_after run.
Proof.
  apply (result_is_picture_pasted_through_mask Toy.left_pixel
           (Toy.idle (Some Toy.cat_png)) Toy.cat_png Toy.cat Toy.pending
           Toy.left_result [] Toy.left_masks Toy.left_mask []
           Toy.left_mask_image Toy.cut_out).
  - apply toy_on_screen_idle. reflexivity.
  - reflexivity.
  - reflexivity.
  - reflexivity.
  - reflexivity.
  - reflexivity.
  - reflexivity.
  - reflexivity.
  - vm_compute. reflexivity.
Defined.

(** C6 on the instance: the download is the cut-out saved as PNG under
    the name [segmented_cat.png]. *)
Lemma download_is_png_of_result_witness :
  let w := Toy.idle (Some Toy.cat_png) in
  let run := script w Toy.left_pixel (session_of Toy.pending) in
  let show := script (released w) Toy.left_pixel (session_after run) in
  downloads (log run) = [] ∧
  downloads (log show)
  = [(("PNG", Toy.cut_out), "segmented_cat.png", "image/png")] ∧
  outcome show = inl tt.
Proof.
  apply (download_is_png_of_result Toy.left_pixel
           (Toy.idle (Some Toy.cat_png)) Toy.cat_png Toy.cat Toy.pending
           Toy.left_result [] Toy.left_masks Toy.left_mask []
           Toy.left_mask_image Toy.cut_out).
  - apply toy_on_screen_idle. reflexivity.
  - reflexivity.
  - reflexivity.
  - reflexivity.
  - reflexivity.
  - reflexivity.
  - reflexivity.
  - reflexivity.
  - vm_compute. reflexivity.
Defined.


(** C8 on the instance: a second click at (1, 0). *)
Lemma points_never_duplicated_witness :
  NoDup [[1; 0]] ∧
  on_click (Some (Click 1 0)) (session_of Toy.one_point)
  = (inl tt, session_of Toy.one_point, []).
Proof.
  destruct (points_never_duplicated (session_of Toy.one_point) [[1; 0]]
              toy_reachable_one_point eq_refl) as [Hnd Hclick].
  split; [exact Hnd|]. apply Hclick. apply list_elem_of_here.
Defined.

(** C9 on the instance: [dog.png] is uploaded into the session that
    holds the point (1, 0) and the cut-out of [cat.png]. *)
Lemma new_upload_resets_session_witness :
  let w := Toy.idle (Some Toy.dog_png) in
  reset_on_new_upload (Some Toy.dog_png) (session_of Toy.segmented)
  = (inl tt, session_of (Entries [] (Some "dog.png") None false 0), []) ∧
  script w Toy.left_pixel (session_of Toy.segmented)
  = match (main_area w (Some Toy.dog_png);;
           segmentation Toy.left_pixel (Some Toy.dog_png);;
           show_result (Some Toy.dog_png))
            (session_of (Entries [] (Some "dog.png") None false 0)) with
    | (res, ss, ev) => (res, ss, header_log ++ ev)
    end.
Proof.
  apply (new_upload_resets_session Toy.left_pixel
           (Toy.idle (Some Toy.dog_png)) Toy.dog_png Toy.segmented).
  - reflexivity.
  - discriminate.
Defined.

(** C10 on the instance: the attempt fails and the cached result is
    still [None]. *)
Lemma processing_flag_cleared_after_attempt_witness :
  let w := Toy.idle (Some Toy.cat_png) in
  let ss := session_of Toy.pending in
  let run := script w Toy.out_of_memory ss in
  ss !! "segmented_image_rgba" = Some VNone ∧
  outcome run = inr RerunException ∧
  session_after run !! "is_processing" = Some (VBool false) ∧
  ∀ f image e,
    w_file_uploader w = Some f → decodes f image →
    outcome (predict Toy.out_of_memory image (np_array image) ss)
    = inr (Raised e) →
    session_after run !! "segmented_image_rgba" = Some VNone.
Proof.
  apply (processing_flag_cleared_after_attempt Toy.out_of_memory
           (Toy.idle (Some Toy.cat_png)) (session_of Toy.pending)).
  - exact toy_reachable_pending.
  - vm_compute. discriminate.
Defined.

(** * The further properties on the concrete instance *)

Lemma toy_on_screen_pressing label r :
  image_uploaded_name r = Some "cat.png" →
  on_screen (Toy.pressing (Some Toy.cat_png) label) Toy.cat_png Toy.cat r.
Proof.
  intros Hname. split_and!; [reflexivity | exact Hname | apply toy_decodes |].
  intros c Hc. discriminate Hc.
Qed.

(** X2 on the instance: the session with a segmentation pending. *)
Lemma reachable_session_coherent_witness :
  session_of Toy.pending = ∅ ∨
  ∃ r, session_of Toy.pending = session_of r ∧ coherent r.
Proof.
  apply (reachable_session_coherent (session_of Toy.pending)).
  apply toy_reachable_pending.
Defined.

(** X3 on the instance: the pending segmentation calls the model with
    the point (1, 0) and the label 1. *)
Lemma model_called_with_selected_points_witness :
  session_of Toy.pending !! "points" = Some (VPoints [[1; 0]]) ∧
  [[1; 0]] ≠ [] ∧
  Forall (λ p : list Z, length p = 2%nat) [[1; 0]] ∧
  [1] = replicate (length [[1; 0]]) 1.
Proof.
  apply (model_called_with_selected_points Toy.left_pixel
           (Toy.idle (Some Toy.cat_png)) (session_of Toy.pending)
           (@np_array Toy.external Toy.cat) [[1; 0]] [1]).
  - apply toy_reachable_pending.
  - assert (predictor_calls
              (log (script (Toy.idle (Some Toy.cat_png)) Toy.left_pixel
                      (session_of Toy.pending)))
            = [(np_array Toy.cat, [[1; 0]], [1])]) as ->
      by (vm_compute; reflexivity).
    apply list_elem_of_singleton. reflexivity.
Defined.

(** X4 on the instance: a click at (0, 0) on the session that has the
    cut-out cached. *)
Lemma points_change_clears_result_witness :
  let r' := Entries [[1; 0]; [0; 0]] (Some "cat.png") None false 0 in
  segmented_image_rgba r' = None ∧ is_processing r' = false.
Proof.
  apply (points_change_clears_result Toy.left_pixel
           (Toy.clicked (Some Toy.cat_png) 0 0) Toy.segmented
           (Entries [[1; 0]; [0; 0]] (Some "cat.png") None false 0)).
  - reflexivity.
  - discriminate.
Defined.

(** X5 on the instance: the reset button on the session with one
    point. *)
Lemma reset_button_clears_and_rekeys_witness :
  let w := Toy.pressing (Some Toy.cat_png) reset_label in
  let run := script w Toy.left_pixel (session_of Toy.one_point) in
  let r' := Entries [] (Some "cat.png") None false 1 in
  outcome run = inr RerunException ∧
  session_after run = session_of r' ∧
  predictor_calls (log run) = [] ∧
  coordinates_key Toy.cat_png r' ≠ coordinates_key Toy.cat_png Toy.one_point.
Proof.
  apply (reset_button_clears_and_rekeys Toy.left_pixel
           (Toy.pressing (Some Toy.cat_png) reset_label) Toy.cat_png Toy.cat
           Toy.one_point).
  - apply toy_on_screen_pressing. reflexivity.
  - discriminate.
  - apply (bool_decide_unpack _). vm_compute. exact I.
Defined.

(** X6 on the instance: the mask of the model does not fit the picture,
    and Pillow's [ValueError] is reported. *)
Lemma exception_in_try_is_reported_witness :
  let w := Toy.idle (Some Toy.cat_png) in
  let run := script w Toy.wrong_size (session_of Toy.pending) in
  log run
  = header_log ++ preview_log Toy.cat_png Toy.cat Toy.pending ++
    spinner_log ++
    predictor_call (np_array Toy.cat) [[1; 0]] [1]
    :: error_log (Exception "ValueError" "images do not match") ∧
  outcome run = inr RerunException ∧
  session_after run = session_of Toy.one_point.
Proof.
  apply (exception_in_try_is_reported Toy.wrong_size
           (Toy.idle (Some Toy.cat_png)) Toy.cat_png Toy.cat Toy.pending
           (Exception "ValueError" "images do not match")).
  - apply toy_on_screen_idle. reflexivity.
  - right. split; reflexivity.
  - reflexivity.
  - vm_compute. reflexivity.
Defined.

(** X7 on the instance: the model returns a result without masks. *)
Lemma no_mask_warns_and_clears_witness :
  let w := Toy.idle (Some Toy.cat_png) in
  let run := script w Toy.no_mask (session_of Toy.pending) in
  log run
  = header_log ++ preview_log Toy.cat_png Toy.cat Toy.pending ++
    spinner_log ++
    [ predictor_call (np_array Toy.cat) [[1; 0]] [1];
      st_warning
        "指定された点ではセグメンテーションマスクが見つかりませんでした。別の点を試してください。" ] ∧
  outcome run = inr RerunException ∧
  session_after run = session_of Toy.one_point.
Proof.
  apply (no_mask_warns_and_clears Toy.no_mask
           (Toy.idle (Some Toy.cat_png)) Toy.cat_png Toy.cat Toy.pending
           [ {| masks := None |} ]).
  - apply toy_on_screen_idle. reflexivity.
  - right. split; reflexivity.
  - reflexivity.
  - reflexivity.
  - right. eexists _, _. split; [reflexivity|]. left. reflexivity.
Defined.

(** X8 on the instance: the run button, the segmentation, and then the
    execution that shows the cut-out. *)
Lemma reruns_settle_witness :
  let w := Toy.pressing (Some Toy.cat_png) run_label in
  let run1 := script w Toy.left_pixel (session_of Toy.one_point) in
  let run2 := script (released w) Toy.left_pixel (session_after run1) in
  let run3 := script (released w) Toy.left_pixel (session_after run2) in
  ends (outcome run3) ∧ session_after run3 = session_after run2.
Proof.
  apply (reruns_settle Toy.left_pixel
           (Toy.pressing (Some Toy.cat_png) run_label) Toy.one_point).
  - vm_compute. reflexivity.
  - vm_compute. reflexivity.
Defined.

(** X9 on the instance: the upload is removed while the cut-out is
    cached. *)
Lemma removed_upload_breaks_result_display_witness :
  script (Toy.idle None) Toy.left_pixel (session_of Toy.segmented)
  = (inr (Raised (Exception "AttributeError"
                    "'NoneType' object has no attribute 'name'")),
     session_of Toy.segmented,
     header_log ++
     [ st_info "画像をアップロードして開始してください。";
       st_subheader "セグメンテーション結果（透過PNG）";
       st_image Toy.cut_out "セグメントされた画像" true ]).
Proof.
  apply (removed_upload_breaks_result_display Toy.left_pixel
           (Toy.idle None) Toy.segmented).
  reflexivity.
Defined.

(** X10 on the instance: a file that is no picture. *)
Lemma undecodable_upload_raises_witness :
  script (Toy.idle (Some Toy.broken_png)) Toy.left_pixel
    (session_of Toy.segmented)
  = (inr (Raised (Exception "UnidentifiedImageError"
                    "cannot identify image file")),
     session_of (Entries [] (Some "broken.png") None false 0),
     header_log).
Proof.
  apply (undecodable_upload_raises Toy.left_pixel
           (Toy.idle (Some Toy.broken_png)) Toy.broken_png Toy.segmented
           (Exception "UnidentifiedImageError" "cannot identify image file")).
  - reflexivity.
  - left. reflexivity.
Defined.

(** X11 on the instance: a refresh while the cut-out is cached. *)
Lemma idle_refresh_changes_nothing_witness :
  script (Toy.idle (Some Toy.cat_png)) Toy.left_pixel
    (session_of Toy.segmented)
  = (inl tt, session_of Toy.segmented,
     header_log ++ preview_log Toy.cat_png Toy.cat Toy.segmented ++
     result_log Toy.cat_png Toy.cut_out).
Proof.
  apply (idle_refresh_changes_nothing Toy.left_pixel
           (Toy.idle (Some Toy.cat_png)) Toy.cat_png Toy.cat Toy.segmented).
  - apply toy_on_screen_idle. reflexivity.
  - right. split; reflexivity.
  - reflexivity.
Defined.

(** X12 on the instance: the download for [cat.png]. *)
Lemma download_named_after_stem_witness :
  downloads
    (log (show_result (Some Toy.cat_png) (session_of Toy.segmented)))
  = [(Image_save Toy.cut_out "PNG", "segmented_" +:+ "cat" +:+ ".png",
      "image/png")].
Proof.
  apply (download_named_after_stem Toy.cat_png Toy.cut_out Toy.segmented
           "cat" "png").
  - reflexivity.
  - apply (bool_decide_unpack _). vm_compute. exact I.
  - right. reflexivity.
Defined.

(** X13 on the instance: the model file is missing on the first
    execution. *)
Lemma app_stops_exactly_without_model_witness :
  (∀ e, Toy.not_found "sam2.1_b.pt" = inl e →
        app Toy.not_found (Toy.idle None) ∅
        = (inr StopException, ∅,
           [ st_error
               ("Ultralytics SAM 2モデルのロード中にエラーが発生しました: "
                +:+ exn_str e);
             st_error
               "`pip install ultralytics` が正常に実行されているか確認してください。" ]))
  ∧ (outcome (app Toy.not_found (Toy.idle None) ∅) = inr StopException →
     ∃ e, Toy.not_found "sam2.1_b.pt" = inl e).
Proof.
  apply (app_stops_exactly_without_model Toy.not_found (Toy.idle None) ∅).
  apply reachable_fresh.
Defined.

(** X15 on the instance: the first execution with the model loaded. *)
Lemma page_starts_with_load_message_witness :
  ∃ ev,
    log (app (Toy.loaded Toy.left_pixel) (Toy.idle None) ∅)
    = st_success "Ultralytics SAM 2モデルが正常にロードされました。"
      :: st_set_page_config "wide" "画像セグメンテーション（SAM 2使用）"
      :: st_title "画像セグメンテーションアプリケーション"
      :: st_markdown usage
      :: st_file_uploader "画像をアップロードしてください"
           ["png"; "jpg"; "jpeg"]
      :: ev.
Proof.
  apply (page_starts_with_load_message (Toy.loaded Toy.left_pixel)
           (Toy.idle None) Toy.left_pixel ∅).
  reflexivity.
Defined.

(** X16 on the instance: the model that selects the left pixel. *)
Lemma mask_guard_protects_indexing_witness :
  ∃ r0 rest m t ts,
    [Toy.left_result] = r0 :: rest ∧ masks r0 = Some m ∧
    data m = Some (t :: ts) ∧
    first_mask [Toy.left_result] ∅ = (inl t, ∅, []).
Proof.
  apply (mask_guard_protects_indexing [Toy.left_result] ∅).
  reflexivity.
Defined.

(** X17 on the instance: the cut-out is shown from the cache. *)
Lemma result_displayed_only_from_cache_witness :
  let w := Toy.idle (Some Toy.cat_png) in
  let run := script w Toy.left_pixel (session_of Toy.segmented) in
  segmented_image_rgba (start_of w Toy.segmented) = Some Toy.cut_out ∧
  displayed_images (log run) = [Toy.cut_out] ∧
  session_after run = session_of (start_of w Toy.segmented) ∧
  ends (outcome run).
Proof.
  apply (result_displayed_only_from_cache Toy.left_pixel
           (Toy.idle (Some Toy.cat_png)) Toy.segmented Toy.cut_out).
  assert (displayed_images
            (log (script (Toy.idle (Some Toy.cat_png)) Toy.left_pixel
                    (session_of Toy.segmented)))
          = [Toy.cut_out]) as -> by (vm_compute; reflexivity).
  apply list_elem_of_singleton. reflexivity.
Defined.
